(** * MovieScraper (scraper.py): a shallow embedding and its properties

    The program discovers movie identifiers from TMDB, fetches a detail and a
    credits record per identifier, enriches it with an OMDb record and appends
    the merged record to a line-delimited JSON file.

    Conventions of the embedding:
    - a decoded JSON payload is a value of [json]; a Python [dict] is an
      association list in insertion order with unique keys;
    - Python [int] is [Z]; Python [float] is an IEEE-754 binary64 value, a
      [spec_float] of the Standard Library with its operations (rounding to
      nearest, ties to even), so that sums and quotients are rounded, can be
      infinite or NaN, and an integer beyond the double range raises
      [OverflowError]; [sum] adds from left to right, as CPython up to 3.11
      does;
    - [str] is [string], read as a sequence of characters with code points
      below 256; text with other characters is outside the model;
    - a Python exception is a value [Raise e] of [result];
    - the network, the output file and the console are an explicit [world]
      threaded by the monad [M]; [time.sleep] has no counterpart. *)

From Stdlib Require Import List String Ascii ZArith QArith Bool Lia.
From Stdlib Require Import Permutation Sorted SpecFloat.
Import ListNotations.

Set Warnings "-register-all".
Local Open Scope string_scope.
Local Open Scope list_scope.
Local Open Scope Z_scope.

(** ** JSON values and Python exceptions *)

Inductive json : Type :=
| JNull
| JBool (b : bool)
| JInt (z : Z)
| JReal (f : spec_float)
| JStr (s : string)
| JArr (l : list json)
| JObj (kvs : list (string * json)).

Inductive exn : Type :=
| HTTPError
| ConnectionError
| JSONDecodeError
| KeyError
| TypeError
| AttributeError
| ValueError
| OverflowError
| ZeroDivisionError.

Inductive result (A : Type) : Type :=
| Ok (a : A)
| Raise (e : exn).

Arguments Ok {A} a.
Arguments Raise {A} e.

Definition rbind {A B : Type} (r : result A) (k : A -> result B) : result B :=
  match r with
  | Ok a => k a
  | Raise e => Raise e
  end.

Declare Scope result_scope.
Delimit Scope result_scope with result.
Notation "x <- r ;; k" := (rbind r (fun x => k))
  (at level 61, r at next level, right associativity) : result_scope.

Fixpoint rmap {A B : Type} (f : A -> result B) (l : list A) : result (list B) :=
  match l with
  | [] => Ok []
  | x :: t =>
      (y <- f x ;;
       ys <- rmap f t ;;
       Ok (y :: ys))%result
  end.

(** ** Python primitives used by the scraper *)

Module Py.

(** [d[k]] on an association list. *)
Fixpoint lookup (k : string) (kvs : list (string * json)) : option json :=
  match kvs with
  | [] => None
  | (k', v) :: t => if String.eqb k k' then Some v else lookup k t
  end.

(** [d.get(k, dflt)]; only a dict has the method. *)
Definition get (d : json) (k : string) (dflt : json) : result json :=
  match d with
  | JObj kvs =>
      match lookup k kvs with
      | Some v => Ok v
      | None => Ok dflt
      end
  | _ => Raise AttributeError
  end.

(** [m[k]] with a string key [k]. *)
Definition getitem (m : json) (k : string) : result json :=
  match m with
  | JObj kvs =>
      match lookup k kvs with
      | Some v => Ok v
      | None => Raise KeyError
      end
  | _ => Raise TypeError
  end.

Fixpoint chars (s : string) : list json :=
  match s with
  | EmptyString => []
  | String c t => JStr (String c EmptyString) :: chars t
  end.

(** The items a [for] loop or [sorted] draws from a value. *)
Definition iter (v : json) : result (list json) :=
  match v with
  | JArr l => Ok l
  | JObj kvs => Ok (map (fun kv => JStr (fst kv)) kvs)
  | JStr s => Ok (chars s)
  | _ => Raise TypeError
  end.

(** *** Numbers

    A Python [float] is an IEEE-754 binary64 value with the operations of
    [SpecFloat]: rounding to nearest, ties to even. *)
Definition float : Type := spec_float.

Definition prec : Z := 53.

Definition emax : Z := 1024.

(** Truth value, as tested by [not x] and [if x]. *)
Definition truthy (v : json) : bool :=
  match v with
  | JNull => false
  | JBool b => b
  | JInt z => negb (z =? 0)
  | JReal f => match f with S754_zero _ => false | _ => true end
  | JStr s => negb (String.eqb s "")
  | JArr l => match l with [] => false | _ => true end
  | JObj kvs => match kvs with [] => false | _ => true end
  end.

(** The place of a number on the extended real line; a float stands for
    exactly one rational, an infinity, or nothing (NaN). *)
Inductive place : Type :=
| MinusInf
| Finite (q : Q)
| PlusInf
| NotANumber.

Definition float_place (f : float) : place :=
  match f with
  | S754_zero _ => Finite 0%Q
  | S754_infinity s => if s then MinusInf else PlusInf
  | S754_nan => NotANumber
  | S754_finite s m e =>
      let sm := if s then Zneg m else Zpos m in
      Finite match e with
             | Z0 => inject_Z sm
             | Zpos p => inject_Z (sm * Z.pow_pos 2 p)
             | Zneg p => Qmake sm (Pos.pow 2 p)
             end
  end.

(** [x < y] on numbers is exact, also between an [int] and a [float], and
    false when either side is NaN. *)
Definition place_ltb (x y : place) : bool :=
  match x, y with
  | NotANumber, _ => false
  | _, NotANumber => false
  | MinusInf, MinusInf => false
  | MinusInf, _ => true
  | _, MinusInf => false
  | PlusInf, _ => false
  | _, PlusInf => true
  | Finite p, Finite q => negb (Qle_bool q p)
  end.

(** [x == y] on numbers as a container tests it, [x is y or x == y]: exact,
    and true between the NaN of two payloads, which the decoder makes one
    object. *)
Definition place_eqb (x y : place) : bool :=
  match x, y with
  | MinusInf, MinusInf => true
  | PlusInf, PlusInf => true
  | NotANumber, NotANumber => true
  | Finite p, Finite q => Qeq_bool p q
  | _, _ => false
  end.

(** Numbers: [bool] is a subtype of [int]. *)
Definition as_int (v : json) : option Z :=
  match v with
  | JInt z => Some z
  | JBool b => Some (if b then 1 else 0)
  | _ => None
  end.

Definition as_num (v : json) : option place :=
  match v with
  | JReal f => Some (float_place f)
  | _ => option_map (fun z => Finite (inject_Z z)) (as_int v)
  end.

(** [a == b] for the hashable values, as a set tests it: numbers compare
    across types by their exact values. *)
Definition eq (a b : json) : bool :=
  match as_num a, as_num b with
  | Some x, Some y => place_eqb x y
  | None, None =>
      match a, b with
      | JNull, JNull => true
      | JStr s, JStr t => String.eqb s t
      | _, _ => false
      end
  | _, _ => false
  end.

(** [v == "lit"] and [v != "lit"] against a string literal. *)
Definition eq_str (v : json) (lit : string) : bool := eq v (JStr lit).

(** [a == b] for any two values, as the comparison of lists tests their
    items: lists item by item, dicts key by key whatever the order. *)
Fixpoint equal (a b : json) : bool :=
  match a, b with
  | JArr l, JArr m =>
      (fix items (l m : list json) : bool :=
         match l, m with
         | [], [] => true
         | x :: l', y :: m' => equal x y && items l' m'
         | _, _ => false
         end) l m
  | JObj kvs, JObj kws =>
      Nat.eqb (List.length kvs) (List.length kws)
      && (fix entries (kvs : list (string * json)) : bool :=
            match kvs with
            | [] => true
            | (k, v) :: t =>
                match lookup k kws with
                | Some w => equal v w
                | None => false
                end && entries t
            end) kvs
  | _, _ => eq a b
  end.

(** [a < b] outside lists: numbers among themselves, strings among
    themselves; [None] and dicts are never ordered. *)
Definition lt_flat (a b : json) : result bool :=
  match as_num a, as_num b with
  | Some x, Some y => Ok (place_ltb x y)
  | None, None =>
      match a, b with
      | JStr s, JStr t => Ok (String.ltb s t)
      | _, _ => Raise TypeError
      end
  | _, _ => Raise TypeError
  end.

(** [a < b]; two lists are ordered by their first items that differ, or by
    their lengths when one is a prefix of the other. *)
Fixpoint lt (a b : json) : result bool :=
  match a, b with
  | JArr l, JArr m =>
      (fix items (l m : list json) : result bool :=
         match l, m with
         | [], [] => Ok false
         | [], _ :: _ => Ok true
         | _ :: _, [] => Ok false
         | x :: l', y :: m' => if equal x y then items l' m' else lt x y
         end) l m
  | _, _ => lt_flat a b
  end.

(** [float(z)] for an integer [z]. *)
Definition float_of_Z (z : Z) : float := binary_normalize prec emax z 0 false.

Definition is_infinite (f : float) : bool :=
  match f with
  | S754_infinity _ => true
  | _ => false
  end.

(** The conversion of an [int] operand of a float operation. *)
Definition to_float (z : Z) : result float :=
  if is_infinite (float_of_Z z) then Raise OverflowError else Ok (float_of_Z z).

Definition as_float (v : json) : option (result float) :=
  match v with
  | JReal f => Some (Ok f)
  | _ => option_map to_float (as_int v)
  end.

(** [a + b] on numbers, as [sum] uses it: exact on two integers, otherwise
    the rounded sum of the two operands as floats. *)
Definition add (a b : json) : result json :=
  match as_int a, as_int b with
  | Some x, Some y => Ok (JInt (x + y))
  | _, _ =>
      match as_float a, as_float b with
      | Some ra, Some rb =>
          (x <- ra ;; y <- rb ;; Ok (JReal (SFadd prec emax x y)))%result
      | _, _ => Raise TypeError
      end
  end.

(** [sum(l)]: left fold from the integer 0. *)
Fixpoint sum_from (acc : json) (l : list json) : result json :=
  match l with
  | [] => Ok acc
  | x :: t => (acc' <- add acc x ;; sum_from acc' t)%result
  end.

Definition sum (l : list json) : result json := sum_from (JInt 0) l.

(** An integer as the float operand that stands for it exactly. *)
Definition exact_float (z : Z) : float :=
  match z with
  | Z0 => S754_zero false
  | Zpos p => S754_finite false p 0
  | Zneg p => S754_finite true p 0
  end.

(** [a / b] on two integers, [b] positive: the quotient rounded once. *)
Definition int_truediv (a b : Z) : float :=
  SFdiv prec emax (exact_float a) (exact_float b).

(** [a / n] for a number [a] and a length [n]: true division. *)
Definition truediv_len (a : json) (n : nat) : result json :=
  match a with
  | JReal f =>
      match n with
      | O => Raise ZeroDivisionError
      | _ => (d <- to_float (Z.of_nat n) ;; Ok (JReal (SFdiv prec emax f d)))%result
      end
  | _ =>
      match as_int a with
      | Some z =>
          match n with
          | O => Raise ZeroDivisionError
          | _ =>
              if is_infinite (int_truediv z (Z.of_nat n))
              then Raise OverflowError
              else Ok (JReal (int_truediv z (Z.of_nat n)))
          end
      | None => Raise TypeError
      end
  end.

(** [max(l)] on a non-empty list: the first maximal item. *)
Fixpoint max_from (best : json) (l : list json) : result json :=
  match l with
  | [] => Ok best
  | x :: t =>
      (gt <- lt best x ;;
       max_from (if gt then x else best) t)%result
  end.

Definition max (l : list json) : result json :=
  match l with
  | [] => Raise ValueError
  | x :: t => max_from x t
  end.

(** [range(a, b)]. *)
Definition range (a b : Z) : list Z :=
  map (fun i => a + Z.of_nat i) (seq 0 (Z.to_nat (b - a))).

(** *** Strings *)

(** [s.replace(c, "")] for a one-character [c]. *)
Fixpoint remove_char (c : ascii) (s : string) : string :=
  match s with
  | EmptyString => EmptyString
  | String a t =>
      if Ascii.eqb a c then remove_char c t else String a (remove_char c t)
  end.

(** [s.split(c)[0]] for a one-character [c]. *)
Fixpoint before_char (c : ascii) (s : string) : string :=
  match s with
  | EmptyString => EmptyString
  | String a t => if Ascii.eqb a c then EmptyString else String a (before_char c t)
  end.

(** The white space that [int] strips: tab to carriage return and space,
    and among the characters above 127 the next-line and no-break space. *)
Definition is_space (a : ascii) : bool :=
  let n := nat_of_ascii a in
  ((9 <=? n) && (n <=? 13) || (n =? 32) || (n =? 133) || (n =? 160))%nat.

Definition digit_of (a : ascii) : option Z :=
  let n := nat_of_ascii a in
  if ((48 <=? n) && (n <=? 57))%nat then Some (Z.of_nat (n - 48)) else None.

Fixpoint lstrip (l : list ascii) : list ascii :=
  match l with
  | a :: t => if is_space a then lstrip t else l
  | [] => []
  end.

Definition strip (l : list ascii) : list ascii :=
  rev (lstrip (rev (lstrip l))).

(** Digits with single underscores between them; [acc] is the value read so
    far, [n] the number of digits read, [after_digit] tells whether the last
    character was a digit. *)
Fixpoint digits (acc : Z) (n : nat) (after_digit : bool) (l : list ascii)
  : option (Z * nat) :=
  match l with
  | [] => if after_digit then Some (acc, n) else None
  | a :: t =>
      match digit_of a with
      | Some d => digits (10 * acc + d) (S n) true t
      | None =>
          if Ascii.eqb a "_"%char && after_digit
          then digits acc n false t
          else None
      end
  end.

(** [sys.int_info.default_max_str_digits]. *)
Definition max_str_digits : nat := 4300.

Definition int_of_chars (l : list ascii) : result Z :=
  let body := strip l in
  let '(neg, rest) :=
    match body with
    | a :: t =>
        if Ascii.eqb a "-"%char then (true, t)
        else if Ascii.eqb a "+"%char then (false, t)
        else (false, body)
    | [] => (false, [])
    end in
  match digits 0 0 false rest with
  | Some (v, n) =>
      if (n <=? max_str_digits)%nat
      then Ok (if neg then - v else v)
      else Raise ValueError
  | None => Raise ValueError
  end.

(** [int(s)] for a string [s], base 10. *)
Definition int (s : string) : result Z := int_of_chars (list_ascii_of_string s).

(** [s.replace(...)], [s.split(...)]: only [str] has these methods. *)
Definition str_method (f : string -> string) (v : json) : result string :=
  match v with
  | JStr s => Ok (f s)
  | _ => Raise AttributeError
  end.

End Py.

Example int_87 : Py.int "87" = Ok 87.
Proof. reflexivity. Qed.

Example int_NA : Py.int "N/A" = Raise ValueError.
Proof. reflexivity. Qed.

Example int_spaces_sign : Py.int " -1_000 " = Ok (-1000).
Proof. reflexivity. Qed.

Example int_empty : Py.int "" = Raise ValueError.
Proof. reflexivity. Qed.

(** ** The world: network, output file, console *)

(** The endpoint of a TMDB request together with its parameters (the API key
    is attached to every request by the session and is left out). *)
Inductive endpoint : Type :=
| DiscoverMovie (year page : Z)
| MovieDetails (movie_id : json)
| MovieCredits (movie_id : json).

Inductive request : Type :=
| TmdbGet (e : endpoint)
| OmdbGet (imdb_id : json).

(** What the scraper reads of a [requests.Response]: [body] is [None] when
    [r.json()] cannot decode the payload. *)
Record response : Type := mkResponse {
  status_code : Z;
  body : option json
}.

(** The lines printed by the scraper. *)
Inductive event : Type :=
| Discovered (page year : Z)
| Scraped (i : nat)
| Failed (movie_id : json) (e : exn)
| Complete.

(** [requests]: the HTTP requests issued so far; [sink]: the records appended
    to data/raw.jsonl, one per line; [console]: the printed lines.  All three
    are in chronological order. *)
Record world : Type := mkWorld {
  requests : list request;
  sink : list json;
  console : list event
}.

Definition empty_world : world := mkWorld [] [] [].

(** State and exception monad: an exception keeps the effects done so far. *)
Definition M (A : Type) : Type := world -> result A * world.

Definition ret {A : Type} (a : A) : M A := fun w => (Ok a, w).

Definition bind {A B : Type} (m : M A) (k : A -> M B) : M B :=
  fun w =>
    match m w with
    | (Ok a, w') => k a w'
    | (Raise e, w') => (Raise e, w')
    end.

Definition lift {A : Type} (r : result A) : M A := fun w => (r, w).

Definition try_except {A : Type} (m : M A) (handler : exn -> M A) : M A :=
  fun w =>
    match m w with
    | (Ok a, w') => (Ok a, w')
    | (Raise e, w') => handler e w'
    end.

Declare Scope monad_scope.
Delimit Scope monad_scope with monad.
Notation "x <- m ;; k" := (bind m (fun x => k))
  (at level 61, m at next level, right associativity) : monad_scope.
Notation "m ;;; k" := (bind m (fun _ => k))
  (at level 61, right associativity) : monad_scope.

Fixpoint for_each {X S : Type} (l : list X) (body : X -> S -> M S) (s : S) : M S :=
  match l with
  | [] => ret s
  | x :: t => (s' <- body x s ;; for_each t body s')%monad
  end.

Definition print (e : event) : M unit :=
  fun w => (Ok tt, mkWorld (requests w) (sink w) (console w ++ [e])).

Definition write_line (record : json) : M unit :=
  fun w => (Ok tt, mkWorld (requests w) (sink w ++ [record]) (console w)).

(** ** A Python [set] of hashable values

    The elements are kept in insertion order and are pairwise different under
    [==]. *)
Definition pyset : Type := list json.

Definition hashable (v : json) : bool :=
  match v with
  | JArr _ | JObj _ => false
  | _ => true
  end.

Definition set_add (x : json) (s : pyset) : result pyset :=
  if hashable x
  then Ok (if existsb (Py.eq x) s then s else s ++ [x])
  else Raise TypeError.

(** ** Dictionaries *)

Fixpoint dict_set (k : string) (v : json) (d : list (string * json))
  : list (string * json) :=
  match d with
  | [] => [(k, v)]
  | (k', v') :: t =>
      if String.eqb k k' then (k', v) :: t else (k', v') :: dict_set k v t
  end.

(** [{**a, **b}]. *)
Definition dict_merge (a b : json) : result json :=
  match a, b with
  | JObj da, JObj db =>
      Ok (JObj (fold_left (fun d kv => dict_set (fst kv) (snd kv) d) db da))
  | _, _ => Raise TypeError
  end.

Definition is_none (v : json) : bool :=
  match v with
  | JNull => true
  | _ => false
  end.

(** [v not in ("N/A", None)]. *)
Definition not_na (v : json) : bool :=
  negb (Py.eq_str v "N/A" || is_none v).

(** ** [sorted(l, key=...)]

    The keys are computed first, then compared with [<] only.  Python's sort
    is stable; a stable insertion sort returns the same list when [<]
    orders the keys, and both raise when there are two keys or more and one
    of them is ordered with no other ([None], a dict).  Keys that [<]
    compares without ordering them (NaN) are outside the model. *)
Fixpoint insert_by_key (k x : json) (l : list (json * json))
  : result (list (json * json)) :=
  match l with
  | [] => Ok [(k, x)]
  | (k', y) :: t =>
      (smaller <- Py.lt k' k ;;
       if (smaller : bool)
       then (r <- insert_by_key k x t ;; Ok ((k', y) :: r))
       else Ok ((k, x) :: (k', y) :: t))%result
  end.

Fixpoint sort_pairs (l : list (json * json)) : result (list (json * json)) :=
  match l with
  | [] => Ok []
  | (k, x) :: t => (s <- sort_pairs t ;; insert_by_key k x s)%result
  end.

Definition sorted_by (key : json -> result json) (l : list json)
  : result (list json) :=
  (ks <- rmap (fun x => k <- key x ;; Ok (k, x)) l ;;
   s <- sort_pairs ks ;;
   Ok (map snd s))%result.

(** ** class MovieScraper *)

Section MovieScraper.

(** The network: [server n req] is the outcome of the request [req] when it
    is the [n]-th request of the run; [requests.get] itself may raise. *)
Variable server : nat -> request -> result response.

(** The builtin [float(x)], left uninterpreted. *)
Variable py_float : json -> result json.

(** [list(movie_ids)]: the iteration order of a set is unspecified. *)
Variable list_of_set : pyset -> list json.

Definition http_get (req : request) : M response :=
  fun w =>
    (server (List.length (requests w)) req,
     mkWorld (requests w ++ [req]) (sink w) (console w)).

(** [r.raise_for_status()]. *)
Definition raise_for_status (r : response) : result unit :=
  if (400 <=? status_code r) && (status_code r <? 600)
  then Raise HTTPError
  else Ok tt.

(** [r.json()]. *)
Definition response_json (r : response) : result json :=
  match body r with
  | Some j => Ok j
  | None => Raise JSONDecodeError
  end.

Definition tmdb_get (e : endpoint) : M json :=
  (r <- http_get (TmdbGet e) ;;
   lift (raise_for_status r) ;;;
   lift (response_json r))%monad.

(** *** discover_movies *)

(** [for m in ...: movie_ids.add(m["id"])]. *)
Fixpoint add_results (ms : list json) (movie_ids : pyset) : result pyset :=
  match ms with
  | [] => Ok movie_ids
  | m :: t =>
      (id <- Py.getitem m "id" ;;
       movie_ids' <- set_add id movie_ids ;;
       add_results t movie_ids')%result
  end.

(** The body of the inner loop. *)
Definition discover_page (year page : Z) (movie_ids : pyset) : M pyset :=
  (data <- tmdb_get (DiscoverMovie year page) ;;
   print (Discovered page year) ;;;
   results <- lift (Py.get data "results" (JArr [])) ;;
   ms <- lift (Py.iter results) ;;
   lift (add_results ms movie_ids))%monad.

Definition discover_movies (start_year end_year pages_per_year : Z) : M pyset :=
  for_each (Py.range start_year (end_year + 1))
    (fun year movie_ids =>
       for_each (Py.range 1 (pages_per_year + 1))
         (fun page movie_ids => discover_page year page movie_ids)
         movie_ids)
    [].

(** *** get_tmdb_record *)

(** [lambda x: x.get("order", 99)]. *)
Definition order_key (x : json) : result json := Py.get x "order" (JInt 99).

(** [sorted(credits.get("cast", []), key=...)[:3]]. *)
Definition top_cast (credits : json) : result (list json) :=
  (cast_all <- Py.get credits "cast" (JArr []) ;;
   items <- Py.iter cast_all ;;
   s <- sorted_by order_key items ;;
   Ok (firstn 3 s))%result.

(** [[c.get("popularity", 0) for c in cast]]. *)
Definition cast_popularities (cast : list json) : result (list json) :=
  rmap (fun c => Py.get c "popularity" (JInt 0)) cast.

(** The loop over the crew, left at the first director. *)
Fixpoint director_loop (crew : list json) : result json :=
  match crew with
  | [] => Ok JNull
  | c :: t =>
      (job <- Py.get c "job" JNull ;;
       if Py.eq_str job "Director"
       then Py.get c "popularity" JNull
       else director_loop t)%result
  end.

(** [sum(cast_pops) / len(cast_pops) if cast_pops else None]. *)
Definition popularity_mean (cast_pops : list json) : result json :=
  match cast_pops with
  | [] => Ok JNull
  | _ => (s <- Py.sum cast_pops ;; Py.truediv_len s (List.length cast_pops))%result
  end.

(** [max(cast_pops) if cast_pops else None]. *)
Definition popularity_max (cast_pops : list json) : result json :=
  match cast_pops with
  | [] => Ok JNull
  | _ => Py.max cast_pops
  end.

(** Everything [get_tmdb_record] does after its two requests. *)
Definition tmdb_record (movie_id details credits : json) : result json :=
  (cast <- top_cast credits ;;
   cast_pops <- cast_popularities cast ;;
   crew_all <- Py.get credits "crew" (JArr []) ;;
   crew <- Py.iter crew_all ;;
   director_popularity <- director_loop crew ;;
   title <- Py.get details "title" JNull ;;
   release_date <- Py.get details "release_date" JNull ;;
   budget <- Py.get details "budget" JNull ;;
   revenue <- Py.get details "revenue" JNull ;;
   runtime <- Py.get details "runtime" JNull ;;
   genres_all <- Py.get details "genres" (JArr []) ;;
   gs <- Py.iter genres_all ;;
   genres <- rmap (fun g => Py.getitem g "name") gs ;;
   imdb_id <- Py.get details "imdb_id" JNull ;;
   collection <- Py.get details "belongs_to_collection" JNull ;;
   mean <- popularity_mean cast_pops ;;
   mx <- popularity_max cast_pops ;;
   language <- Py.get details "original_language" JNull ;;
   Ok (JObj
         [("movie_id", movie_id);
          ("title", title);
          ("release_date", release_date);
          ("budget", budget);
          ("revenue_worldwide", revenue);
          ("runtime", runtime);
          ("genres", JArr genres);
          ("imdb_id", imdb_id);
          ("franchise", JBool (negb (is_none collection)));
          ("cast_popularity_mean", mean);
          ("cast_popularity_max", mx);
          ("director_popularity", director_popularity);
          ("original_language", language)]))%result.

Definition get_tmdb_record (movie_id : json) : M json :=
  (details <- tmdb_get (MovieDetails movie_id) ;;
   credits <- tmdb_get (MovieCredits movie_id) ;;
   lift (tmdb_record movie_id details credits))%monad.

(** *** get_omdb_record *)

(** The loop over [data.get("Ratings", [])]. *)
Fixpoint ratings_loop (rs : list json) (rt_score mc_score : json)
  : result (json * json) :=
  match rs with
  | [] => Ok (rt_score, mc_score)
  | r :: t =>
      (source <- Py.getitem r "Source" ;;
       if Py.eq_str source "Rotten Tomatoes"
       then (value <- Py.getitem r "Value" ;;
             s <- Py.str_method (Py.remove_char "%") value ;;
             ratings_loop t (JStr s) mc_score)
       else if Py.eq_str source "Metacritic"
       then (value <- Py.getitem r "Value" ;;
             s <- Py.str_method (Py.before_char "/") value ;;
             ratings_loop t rt_score (JStr s))
       else ratings_loop t rt_score mc_score)%result
  end.

(** [int(score) if score else None], for [score] a string or [None]. *)
Definition score_field (score : json) : result json :=
  if Py.truthy score
  then match score with
       | JStr s => (z <- Py.int s ;; Ok (JInt z))%result
       | _ => Raise TypeError
       end
  else Ok JNull.

(** [float(data["imdbRating"]) if data.get("imdbRating") not in ("N/A", None)
    else None]. *)
Definition imdb_rating_field (data : json) : result json :=
  (v <- Py.get data "imdbRating" JNull ;;
   if not_na v
   then (x <- Py.getitem data "imdbRating" ;; py_float x)
   else Ok JNull)%result.

Definition imdb_votes_field (data : json) : result json :=
  (v <- Py.get data "imdbVotes" JNull ;;
   if not_na v
   then (x <- Py.getitem data "imdbVotes" ;;
         s <- Py.str_method (Py.remove_char ",") x ;;
         z <- Py.int s ;;
         Ok (JInt z))
   else Ok JNull)%result.

(** [int(data["BoxOffice"].replace("$", "").replace(",", ""))
    if data.get("BoxOffice") not in ("N/A", None) else None]. *)
Definition box_office_field (data : json) : result json :=
  (v <- Py.get data "BoxOffice" JNull ;;
   if not_na v
   then (x <- Py.getitem data "BoxOffice" ;;
         s <- Py.str_method
                (fun s => Py.remove_char "," (Py.remove_char "$" s)) x ;;
         z <- Py.int s ;;
         Ok (JInt z))
   else Ok JNull)%result.

(** [get_omdb_record] from the decoded payload on. *)
Definition omdb_record (data : json) : result json :=
  (ratings_all <- Py.get data "Ratings" (JArr []) ;;
   rs <- Py.iter ratings_all ;;
   scores <- ratings_loop rs JNull JNull ;;
   imdb_rating <- imdb_rating_field data ;;
   imdb_votes <- imdb_votes_field data ;;
   rated <- Py.get data "Rated" JNull ;;
   box_office <- box_office_field data ;;
   rt <- score_field (fst scores) ;;
   mc <- score_field (snd scores) ;;
   awards <- Py.get data "Awards" JNull ;;
   Ok (JObj
         [("imdb_rating", imdb_rating);
          ("imdb_votes", imdb_votes);
          ("mpaa_rating", rated);
          ("domestic_box_office", box_office);
          ("rotten_tomatoes_score", rt);
          ("metacritic_score", mc);
          ("awards_text", awards)]))%result.

Definition get_omdb_record (imdb_id : json) : M json :=
  if negb (Py.truthy imdb_id)
  then ret (JObj [])
  else
    (r <- http_get (OmdbGet imdb_id) ;;
     if negb (status_code r =? 200)
     then ret (JObj [])
     else
       (data <- lift (response_json r) ;;
        resp <- lift (Py.get data "Response" JNull) ;;
        if negb (Py.eq_str resp "True")
        then ret (JObj [])
        else lift (omdb_record data)))%monad.

(** *** scrape *)

(** The statements inside [try], up to the write. *)
Definition merged_record (movie_id : json) : M json :=
  (tmdb_data <- get_tmdb_record movie_id ;;
   imdb_id <- lift (Py.get tmdb_data "imdb_id" JNull) ;;
   omdb_data <- get_omdb_record imdb_id ;;
   lift (dict_merge tmdb_data omdb_data))%monad.

(** One turn of the loop: [try: ... except Exception as e: ...]. *)
Definition scrape_movie (i : nat) (movie_id : json) : M unit :=
  try_except
    (record <- merged_record movie_id ;;
     write_line record ;;;
     print (Scraped i))%monad
    (fun e => print (Failed movie_id e)).

(** [for i, movie_id in enumerate(movie_ids, 1)], from index [i] on. *)
Fixpoint scrape_loop (i : nat) (movie_ids : list json) : M unit :=
  match movie_ids with
  | [] => ret tt
  | movie_id :: t => (scrape_movie i movie_id ;;; scrape_loop (S i) t)%monad
  end.

Definition scrape (start_year end_year pages_per_year : Z) : M unit :=
  (ids <- discover_movies start_year end_year pages_per_year ;;
   scrape_loop 1 (list_of_set ids) ;;;
   print Complete)%monad.

End MovieScraper.

(** * Properties *)

(** ** Inversion of the two monads *)

Lemma rbind_ok {A B : Type} (r : result A) (k : A -> result B) (b : B) :
  rbind r k = Ok b -> exists a, r = Ok a /\ k a = Ok b.
Proof.
  destruct r as [a | e]; simpl; intros H.
  - exists a. split; [reflexivity | exact H].
  - discriminate H.
Qed.

Lemma bind_ok {A B : Type} (m : M A) (k : A -> M B) (w w' : world) (b : B) :
  bind m k w = (Ok b, w') ->
  exists a w1, m w = (Ok a, w1) /\ k a w1 = (Ok b, w').
Proof.
  unfold bind. destruct (m w) as [[a | e] w1]; intros H.
  - exists a, w1. split; [reflexivity | exact H].
  - discriminate H.
Qed.

Lemma lift_ok {A : Type} (r : result A) (w w' : world) (a : A) :
  lift r w = (Ok a, w') -> r = Ok a /\ w' = w.
Proof.
  unfold lift. intros H. injection H as H1 H2. split; [exact H1 | symmetry; exact H2].
Qed.

(** Peel a chain of binds that is known to return. *)
Ltac inv_result H :=
  lazymatch type of H with
  | rbind _ _ = Ok _ =>
      let a := fresh "v" in
      let Ha := fresh "E" in
      apply rbind_ok in H; destruct H as (a & Ha & H);
      cbv beta in H; inv_result H
  | _ => idtac
  end.

Lemma get_ok_inv (d : json) (k : string) (dflt v : json) :
  Py.get d k dflt = Ok v ->
  exists kvs, d = JObj kvs /\
    v = match Py.lookup k kvs with Some x => x | None => dflt end.
Proof.
  destruct d; simpl; try discriminate.
  intros H. exists kvs. split; [reflexivity |].
  destruct (Py.lookup k kvs); injection H as H; symmetry; exact H.
Qed.

Lemma eq_str_true (v : json) (lit : string) :
  Py.eq_str v lit = true <-> v = JStr lit.
Proof.
  unfold Py.eq_str, Py.eq. split.
  - destruct v as [| b | z | q | s | l | kvs]; cbn; try discriminate.
    intros H. apply String.eqb_eq in H. subst s. reflexivity.
  - intros ->. cbn. apply String.eqb_refl.
Qed.

Lemma is_none_true (v : json) : is_none v = true <-> v = JNull.
Proof.
  destruct v; simpl; split; intros H; try reflexivity; discriminate H.
Qed.

(** ** The franchise flag *)

(** C8. Whatever the details payload holds, the "franchise" field of a record
    built by [get_tmdb_record] is a boolean, and it is [true] exactly when the
    payload has a "belongs_to_collection" entry whose value is not null. *)
Theorem franchise_flag_boolean
    (movie_id details credits rec : json) :
  tmdb_record movie_id details credits = Ok rec ->
  exists kvs b,
    details = JObj kvs /\
    Py.getitem rec "franchise" = Ok (JBool b) /\
    (b = true <->
     exists v, Py.lookup "belongs_to_collection" kvs = Some v /\ v <> JNull).
Proof.
  intros H. unfold tmdb_record in H. inv_result H.
  injection H as <-.
  match goal with
  | E : Py.get details "belongs_to_collection" _ = Ok ?c |- _ =>
      apply get_ok_inv in E; destruct E as (kvs & -> & Hc)
  end.
  exists kvs. eexists. split; [reflexivity |]. split; [reflexivity |].
  rewrite Hc. destruct (Py.lookup "belongs_to_collection" kvs) as [coll |].
  - rewrite negb_true_iff. split.
    + intros Hn. exists coll. split; [reflexivity |].
      intros ->. discriminate Hn.
    + intros (c' & Hv & Hne). injection Hv as <-.
      destruct coll; try reflexivity. contradiction Hne. reflexivity.
  - simpl. split; [discriminate |].
    intros (c' & Hv & _). discriminate Hv.
Qed.

Definition details_in_collection : json :=
  JObj [("title", JStr "Test Film");
        ("belongs_to_collection", JObj [("id", JInt 10)])].

Lemma franchise_flag_boolean_witness :
  exists kvs b,
    details_in_collection = JObj kvs /\
    Py.getitem
      (JObj
         [("movie_id", JInt 7); ("title", JStr "Test Film");
          ("release_date", JNull); ("budget", JNull);
          ("revenue_worldwide", JNull); ("runtime", JNull);
          ("genres", JArr []); ("imdb_id", JNull);
          ("franchise", JBool true);
          ("cast_popularity_mean", JNull); ("cast_popularity_max", JNull);
          ("director_popularity", JNull); ("original_language", JNull)])
      "franchise" = Ok (JBool b) /\
    (b = true <->
     exists v, Py.lookup "belongs_to_collection" kvs = Some v /\ v <> JNull).
Proof.
  apply (franchise_flag_boolean (JInt 7) details_in_collection (JObj [])).
  reflexivity.
Defined.

(** ** The requests of one candidate *)

Definition is_omdb (req : request) : bool :=
  match req with
  | OmdbGet _ => true
  | TmdbGet _ => false
  end.

(** Number of requests sent to OMDb. *)
Definition omdb_calls (l : list request) : nat :=
  List.length (filter is_omdb l).

Lemma omdb_calls_tmdb (l : list request) (e : endpoint) :
  omdb_calls (l ++ [TmdbGet e]) = omdb_calls l.
Proof.
  unfold omdb_calls. rewrite filter_app. simpl. rewrite app_nil_r. reflexivity.
Qed.

Lemma tmdb_get_spec (server : nat -> request -> result response)
    (e : endpoint) (w : world) :
  exists res,
    tmdb_get server e w
    = (res, mkWorld (requests w ++ [TmdbGet e]) (sink w) (console w)) /\
    (forall j, res = Ok j ->
       exists rd,
         server (List.length (requests w)) (TmdbGet e) = Ok rd /\
         raise_for_status rd = Ok tt /\
         body rd = Some j).
Proof.
  unfold tmdb_get, bind, http_get, lift.
  destruct (server (List.length (requests w)) (TmdbGet e)) as [rd | err].
  - destruct (raise_for_status rd) as [[] | err] eqn:Hst.
    + unfold response_json. destruct (body rd) as [j |] eqn:Hb.
      * eexists. split; [reflexivity |].
        intros j' Hj. injection Hj as <-. exists rd. auto.
      * eexists. split; [reflexivity |]. intros j' Hj. discriminate Hj.
    + eexists. split; [reflexivity |]. intros j' Hj. discriminate Hj.
  - eexists. split; [reflexivity |]. intros j' Hj. discriminate Hj.
Qed.

(** [get_tmdb_record] sends only TMDB requests, writes and prints nothing,
    and a record it returns is built from the two decoded payloads. *)
Lemma get_tmdb_record_spec (server : nat -> request -> result response)
    (movie_id : json) (w : world) :
  exists res w1,
    get_tmdb_record server movie_id w = (res, w1) /\
    sink w1 = sink w /\
    console w1 = console w /\
    omdb_calls (requests w1) = omdb_calls (requests w) /\
    (forall primary, res = Ok primary ->
       exists rd details credits,
         server (List.length (requests w)) (TmdbGet (MovieDetails movie_id))
         = Ok rd /\
         body rd = Some details /\
         tmdb_record movie_id details credits = Ok primary).
Proof.
  unfold get_tmdb_record, bind.
  destruct (tmdb_get_spec server (MovieDetails movie_id) w)
    as (r1 & -> & H1).
  destruct r1 as [details | err].
  - destruct (H1 details eq_refl) as (rd & Hrd & _ & Hbody).
    match goal with
    | |- context [tmdb_get server (MovieCredits movie_id) ?w0] =>
        destruct (tmdb_get_spec server (MovieCredits movie_id) w0)
          as (r2 & -> & H2)
    end.
    simpl. destruct r2 as [credits | err].
    + unfold lift. do 2 eexists. split; [reflexivity |]. simpl.
      repeat split; try reflexivity.
      * rewrite !omdb_calls_tmdb. reflexivity.
      * intros primary Hp. exists rd, details, credits. auto.
    + do 2 eexists. split; [reflexivity |]. simpl.
      repeat split; try reflexivity.
      * rewrite !omdb_calls_tmdb. reflexivity.
      * intros primary Hp. discriminate Hp.
  - do 2 eexists. split; [reflexivity |]. simpl.
    repeat split; try reflexivity.
    + rewrite omdb_calls_tmdb. reflexivity.
    + intros primary Hp. discriminate Hp.
Qed.

(** The keys of a primary record, in the order of the dict literal. *)
Definition primary_fields : list string :=
  ["movie_id"; "title"; "release_date"; "budget"; "revenue_worldwide";
   "runtime"; "genres"; "imdb_id"; "franchise"; "cast_popularity_mean";
   "cast_popularity_max"; "director_popularity"; "original_language"].

(** The keys of an enrichment record. *)
Definition enrichment_fields : list string :=
  ["imdb_rating"; "imdb_votes"; "mpaa_rating"; "domestic_box_office";
   "rotten_tomatoes_score"; "metacritic_score"; "awards_text"].

Lemma tmdb_record_shape (movie_id details credits rec : json) :
  tmdb_record movie_id details credits = Ok rec ->
  exists fields,
    rec = JObj fields /\
    map fst fields = primary_fields /\
    Py.get rec "imdb_id" JNull = Py.get details "imdb_id" JNull.
Proof.
  intros H. unfold tmdb_record in H. inv_result H.
  injection H as <-. eexists. split; [reflexivity |].
  split; [reflexivity |].
  match goal with
  | E : Py.get details "imdb_id" JNull = Ok _ |- _ => rewrite E
  end.
  reflexivity.
Qed.

Lemma lookup_absent (k : string) (kvs : list (string * json)) :
  ~ In k (map fst kvs) -> Py.lookup k kvs = None.
Proof.
  induction kvs as [| [k' v] t IH]; simpl; intros Hn; [reflexivity |].
  destruct (String.eqb k k') eqn:Hk.
  - apply String.eqb_eq in Hk. subst k'. contradiction Hn. left. reflexivity.
  - apply IH. intros Hin. apply Hn. right. exact Hin.
Qed.

Lemma primary_no_enrichment (fields : list (string * json)) :
  map fst fields = primary_fields ->
  Forall (fun k => Py.get (JObj fields) k JNull = Ok JNull) enrichment_fields.
Proof.
  intros Hf. unfold enrichment_fields.
  repeat constructor; unfold Py.get; rewrite lookup_absent; try reflexivity;
    rewrite Hf; unfold primary_fields; simpl;
    intros Hin; repeat (destruct Hin as [Hin | Hin]; [discriminate Hin |]);
    exact Hin.
Qed.

(** ** Candidates without a cross-reference identifier *)

(** C1. When the details payload of a candidate has no "imdb_id" entry, or a
    null one, one turn of the scrape loop sends no request to OMDb; if the
    primary record is built, the line written is that record itself, and
    reading any enrichment field from it gives null; if it is not built,
    nothing is written. *)
Theorem no_cross_reference_no_enrichment
    (server : nat -> request -> result response)
    (py_float : json -> result json)
    (i : nat) (movie_id : json) (w : world)
    (rd : response) (kvs : list (string * json)) :
  server (List.length (requests w)) (TmdbGet (MovieDetails movie_id)) = Ok rd ->
  body rd = Some (JObj kvs) ->
  Py.lookup "imdb_id" kvs = None \/ Py.lookup "imdb_id" kvs = Some JNull ->
  let w' := snd (scrape_movie server py_float i movie_id w) in
  omdb_calls (requests w') = omdb_calls (requests w) /\
  (forall primary w1,
     get_tmdb_record server movie_id w = (Ok primary, w1) ->
     sink w' = sink w ++ [primary] /\
     Forall (fun k => Py.get primary k JNull = Ok JNull) enrichment_fields) /\
  (forall e w1,
     get_tmdb_record server movie_id w = (Raise e, w1) ->
     sink w' = sink w).
Proof.
  intros Hrd Hbody Hid w'. subst w'.
  destruct (get_tmdb_record_spec server movie_id w)
    as (res & w1 & Hg & Hs & Hc & Ho & Hp).
  unfold scrape_movie, try_except, bind, merged_record, bind.
  rewrite Hg. destruct res as [primary | e].
  - destruct (Hp primary eq_refl) as (rd' & details & credits & Hrd' & Hb' & Hrec).
    rewrite Hrd in Hrd'. injection Hrd' as <-.
    rewrite Hbody in Hb'. injection Hb' as <-.
    destruct (tmdb_record_shape _ _ _ _ Hrec) as (fields & -> & Hf & Hget).
    assert (Hnull : Py.get (JObj fields) "imdb_id" JNull = Ok JNull).
    { rewrite Hget. unfold Py.get.
      destruct Hid as [-> | ->]; reflexivity. }
    unfold lift. rewrite Hnull. simpl.
    split; [| split].
    + exact Ho.
    + intros p2 w2 Heq. injection Heq as <- <-.
      split; [rewrite Hs; reflexivity | apply primary_no_enrichment; exact Hf].
    + intros e w2 Heq. discriminate Heq.
  - simpl. split; [| split].
    + exact Ho.
    + intros primary w2 Heq. discriminate Heq.
    + intros e' w2 Heq. exact Hs.
Qed.

Definition server_no_imdb (n : nat) (req : request) : result response :=
  match req with
  | TmdbGet (MovieDetails _) =>
      Ok (mkResponse 200 (Some (JObj [("title", JStr "Test Film")])))
  | TmdbGet (MovieCredits _) => Ok (mkResponse 200 (Some (JObj [])))
  | _ => Raise ConnectionError
  end.

Lemma no_cross_reference_no_enrichment_witness :
  let w' :=
    snd (scrape_movie server_no_imdb (fun _ => Raise ValueError) 1 (JInt 7)
           empty_world) in
  omdb_calls (requests w') = omdb_calls (requests empty_world) /\
  (forall primary w1,
     get_tmdb_record server_no_imdb (JInt 7) empty_world = (Ok primary, w1) ->
     sink w' = sink empty_world ++ [primary] /\
     Forall (fun k => Py.get primary k JNull = Ok JNull) enrichment_fields) /\
  (forall e w1,
     get_tmdb_record server_no_imdb (JInt 7) empty_world = (Raise e, w1) ->
     sink w' = sink empty_world).
Proof.
  apply (no_cross_reference_no_enrichment server_no_imdb
           (fun _ => Raise ValueError) 1 (JInt 7) empty_world
           (mkResponse 200 (Some (JObj [("title", JStr "Test Film")])))
           [("title", JStr "Test Film")]).
  - reflexivity.
  - reflexivity.
  - left. reflexivity.
Defined.

(** ** Soft failures of OMDb *)

(** C2. Whatever the identifier, when the OMDb response has a status other
    than 200, or its decoded payload is an object whose "Response" entry is
    not the string "True" (or is missing), [get_omdb_record] returns the
    empty record and raises nothing. *)
Theorem omdb_soft_failure
    (server : nat -> request -> result response)
    (py_float : json -> result json)
    (imdb_id : json) (w : world) (r : response) :
  server (List.length (requests w)) (OmdbGet imdb_id) = Ok r ->
  status_code r <> 200 \/
  (exists kvs, body r = Some (JObj kvs) /\
               Py.lookup "Response" kvs <> Some (JStr "True")) ->
  fst (get_omdb_record server py_float imdb_id w) = Ok (JObj []).
Proof.
  intros Hr Hfail. unfold get_omdb_record.
  destruct (Py.truthy imdb_id); simpl; [| reflexivity].
  unfold bind, http_get. rewrite Hr.
  destruct (status_code r =? 200) eqn:Hst; simpl; [| reflexivity].
  destruct Hfail as [Hne | (kvs & Hb & Hresp)].
  - apply Z.eqb_eq in Hst. contradiction.
  - unfold lift, response_json. rewrite Hb. simpl.
    destruct (Py.lookup "Response" kvs) as [v |] eqn:Hl.
    + destruct (Py.eq_str v "True") eqn:Heq; simpl; [| reflexivity].
      apply eq_str_true in Heq. subst v. contradiction Hresp. reflexivity.
    + reflexivity.
Qed.

Definition server_not_found (n : nat) (req : request) : result response :=
  Ok (mkResponse 200
        (Some (JObj [("Response", JStr "False");
                     ("Error", JStr "Incorrect IMDb ID.")]))).

Lemma omdb_soft_failure_witness :
  fst (get_omdb_record server_not_found (fun _ => Raise ValueError)
         (JStr "tt0000000") empty_world) = Ok (JObj []).
Proof.
  apply (omdb_soft_failure server_not_found (fun _ => Raise ValueError)
           (JStr "tt0000000") empty_world
           (mkResponse 200
              (Some (JObj [("Response", JStr "False");
                           ("Error", JStr "Incorrect IMDb ID.")])))).
  - reflexivity.
  - right. eexists. split; [reflexivity |]. discriminate.
Defined.

(** ** Decimal literals read by [int] *)

(** The character of a digit. *)
Definition digit_char (d : nat) : ascii := ascii_of_nat (48 + d).

(** The positional value of a digit list, least significant digit first. *)
Fixpoint decimal_rev (ds : list nat) : Z :=
  match ds with
  | [] => 0
  | d :: t => Z.of_nat d + 10 * decimal_rev t
  end.

(** The positional value of a digit list, most significant digit first. *)
Definition decimal (ds : list nat) : Z := decimal_rev (rev ds).

Definition digit_string (ds : list nat) : string :=
  string_of_list_ascii (map digit_char ds).

(** A digit list as a literal accepted by [int]. *)
Definition literal (ds : list nat) : Prop :=
  ds <> [] /\ Forall (fun d => (d < 10)%nat) ds /\
  (List.length ds <= Py.max_str_digits)%nat.

Ltac digit_cases d H :=
  do 10 (destruct d as [| d]; [reflexivity |]); exfalso; lia.

Lemma digit_char_not_space (d : nat) :
  (d < 10)%nat -> Py.is_space (digit_char d) = false.
Proof. intros H. digit_cases d H. Qed.

Lemma digit_char_value (d : nat) :
  (d < 10)%nat -> Py.digit_of (digit_char d) = Some (Z.of_nat d).
Proof. intros H. digit_cases d H. Qed.

Lemma digit_char_not_minus (d : nat) :
  (d < 10)%nat -> Ascii.eqb (digit_char d) "-"%char = false.
Proof. intros H. digit_cases d H. Qed.

Lemma digit_char_not_plus (d : nat) :
  (d < 10)%nat -> Ascii.eqb (digit_char d) "+"%char = false.
Proof. intros H. digit_cases d H. Qed.

Lemma lstrip_digits (ds : list nat) :
  Forall (fun d => (d < 10)%nat) ds ->
  Py.lstrip (map digit_char ds) = map digit_char ds.
Proof.
  intros H. destruct H as [| d t Hd Ht]; cbn [map Py.lstrip]; [reflexivity |].
  rewrite digit_char_not_space by exact Hd. reflexivity.
Qed.

Lemma strip_digits (ds : list nat) :
  Forall (fun d => (d < 10)%nat) ds ->
  Py.strip (map digit_char ds) = map digit_char ds.
Proof.
  intros H. unfold Py.strip. rewrite lstrip_digits by exact H.
  rewrite <- map_rev. rewrite lstrip_digits.
  - rewrite map_rev. apply rev_involutive.
  - apply Forall_rev. exact H.
Qed.

Lemma decimal_rev_app (l : list nat) (d : nat) :
  decimal_rev (l ++ [d]) = decimal_rev l + Z.of_nat d * 10 ^ Z.of_nat (List.length l).
Proof.
  induction l as [| a t IH]; cbn [decimal_rev app List.length].
  - rewrite Z.pow_0_r. ring.
  - rewrite IH. rewrite Nat2Z.inj_succ, Z.pow_succ_r by lia. ring.
Qed.

(** Reading digits left to right from an accumulator. *)
Lemma digits_spec (ds : list nat) :
  Forall (fun d => (d < 10)%nat) ds ->
  forall (acc : Z) (n : nat) (b : bool),
    ds <> [] \/ b = true ->
    Py.digits acc n b (map digit_char ds)
    = Some (decimal ds + acc * 10 ^ Z.of_nat (List.length ds),
            (n + List.length ds)%nat).
Proof.
  induction 1 as [| d t Hd Ht IH]; intros acc n b Hne.
  - destruct Hne as [Hne | ->]; [contradiction Hne; reflexivity |].
    cbn [map Py.digits List.length]. f_equal.
    f_equal; [unfold decimal; cbn [rev decimal_rev]; rewrite Z.pow_0_r; ring | lia].
  - cbn [map Py.digits]. rewrite digit_char_value by exact Hd.
    rewrite IH by (right; reflexivity).
    f_equal. f_equal.
    + unfold decimal. simpl rev. rewrite decimal_rev_app.
      rewrite length_rev. cbn [List.length].
      rewrite Nat2Z.inj_succ, Z.pow_succ_r by lia. ring.
    + cbn [List.length]. lia.
Qed.

(** [int] reads a string of digits as its positional value. *)
Lemma int_digit_string (ds : list nat) :
  literal ds -> Py.int (digit_string ds) = Ok (decimal ds).
Proof.
  intros (Hne & Hd & Hlen).
  unfold Py.int, digit_string. rewrite list_ascii_of_string_of_list_ascii.
  unfold Py.int_of_chars. rewrite strip_digits by exact Hd.
  destruct ds as [| d t]; [contradiction Hne; reflexivity |].
  inversion Hd as [| ? ? Hd0 Ht]; subst.
  cbn [map]. rewrite digit_char_not_minus, digit_char_not_plus by exact Hd0.
  change (digit_char d :: map digit_char t) with (map digit_char (d :: t)).
  rewrite digits_spec; [| exact Hd | left; discriminate].
  apply Nat.leb_le in Hlen. rewrite Nat.add_0_l, Hlen.
  f_equal. lia.
Qed.

Lemma digit_string_not_NA (ds : list nat) :
  literal ds -> digit_string ds <> "N/A".
Proof.
  intros Hl Heq. pose proof (int_digit_string ds Hl) as Hint.
  rewrite Heq in Hint. discriminate Hint.
Qed.

(** ** The box-office field *)

(** C9. The box-office field removes "$" and "," from the text and reads the
    rest as an integer: "$58,000,000" gives 58000000, and in general a text
    whose remaining characters are the digits [ds] gives their decimal
    value; a missing entry, a null one and the sentinel "N/A" give null. *)
Theorem box_office_normalizer :
  box_office_field (JObj [("BoxOffice", JStr "$58,000,000")])
  = Ok (JInt 58000000) /\
  (forall (kvs : list (string * json)) (s : string) (ds : list nat),
     Py.lookup "BoxOffice" kvs = Some (JStr s) ->
     Py.remove_char "," (Py.remove_char "$" s) = digit_string ds ->
     literal ds ->
     box_office_field (JObj kvs) = Ok (JInt (decimal ds))) /\
  (forall kvs : list (string * json),
     Py.lookup "BoxOffice" kvs = None \/
     Py.lookup "BoxOffice" kvs = Some JNull \/
     Py.lookup "BoxOffice" kvs = Some (JStr "N/A") ->
     box_office_field (JObj kvs) = Ok JNull).
Proof.
  split; [reflexivity |]. split.
  - intros kvs s ds Hl Hs Hlit.
    unfold box_office_field, Py.get, Py.getitem. rewrite Hl.
    cbn [rbind]. unfold not_na, Py.eq_str, Py.eq. cbn [Py.as_num Py.as_int option_map is_none].
    destruct (String.eqb s "N/A") eqn:Hna.
    + apply String.eqb_eq in Hna. subst s. exfalso.
      apply (digit_string_not_NA ds Hlit). rewrite <- Hs. reflexivity.
    + cbn [orb negb Py.str_method rbind]. rewrite Hs.
      rewrite int_digit_string by exact Hlit. reflexivity.
  - intros kvs H. unfold box_office_field, Py.get.
    destruct H as [-> | [-> | ->]]; reflexivity.
Qed.

(** ** The Rotten Tomatoes score *)

Definition rating_entry (source value : string) : json :=
  JObj [("Source", JStr source); ("Value", JStr value)].

(** The value stored under "rotten_tomatoes_score", as a function of the
    items of "Ratings". *)
Definition rotten_tomatoes_score (ratings : list json) : result json :=
  (scores <- ratings_loop ratings JNull JNull ;;
   score_field (fst scores))%result.

(** A rating entry of another source (a Metacritic entry carries a text). *)
Definition other_entry (r : json) : Prop :=
  exists kvs src,
    r = JObj kvs /\
    Py.lookup "Source" kvs = Some (JStr src) /\
    src <> "Rotten Tomatoes" /\
    (src = "Metacritic" -> exists v, Py.lookup "Value" kvs = Some (JStr v)).

Lemma ratings_step_other (r : json) (rest : list json) (rt mc : json) :
  other_entry r ->
  exists mc', ratings_loop (r :: rest) rt mc = ratings_loop rest rt mc'.
Proof.
  intros (kvs & src & -> & Hsrc & Hne & Hmc).
  cbn [ratings_loop]. unfold Py.getitem. rewrite Hsrc. cbn [rbind].
  destruct (Py.eq_str (JStr src) "Rotten Tomatoes") eqn:Hrt.
  - apply eq_str_true in Hrt. injection Hrt as ->. contradiction Hne. reflexivity.
  - destruct (Py.eq_str (JStr src) "Metacritic") eqn:Hm.
    + apply eq_str_true in Hm. injection Hm as ->.
      destruct (Hmc eq_refl) as (v & Hv). rewrite Hv.
      cbn [rbind Py.str_method]. eexists. reflexivity.
    + exists mc. reflexivity.
Qed.

Lemma ratings_loop_others (rs : list json) :
  Forall other_entry rs ->
  forall rt mc, exists mc', ratings_loop rs rt mc = Ok (rt, mc').
Proof.
  induction 1 as [| r t Hr Ht IH]; intros rt mc.
  - exists mc. reflexivity.
  - destruct (ratings_step_other r t rt mc Hr) as (mc1 & ->). apply IH.
Qed.







Lemma score_field_digits (s : string) (ds : list nat) :
  s = digit_string ds -> literal ds -> score_field (JStr s) = Ok (JInt (decimal ds)).
Proof.
  intros -> Hlit. unfold score_field, Py.truthy.
  destruct (String.eqb (digit_string ds) "") eqn:He.
  - apply String.eqb_eq in He. pose proof (int_digit_string ds Hlit) as Hi.
    rewrite He in Hi. discriminate Hi.
  - cbn [negb]. rewrite int_digit_string by exact Hlit. reflexivity.
Qed.


(** The score of a record is the one computed from its "Ratings" items. *)
Lemma omdb_record_rotten_tomatoes
    (py_float : json -> result json) (data rec : json) :
  omdb_record py_float data = Ok rec ->
  exists ratings_all rs,
    Py.get data "Ratings" (JArr []) = Ok ratings_all /\
    Py.iter ratings_all = Ok rs /\
    Py.getitem rec "rotten_tomatoes_score" = rotten_tomatoes_score rs.
Proof.
  intros H. unfold omdb_record in H. inv_result H. injection H as <-.
  do 2 eexists. split; [eassumption |]. split; [eassumption |].
  unfold rotten_tomatoes_score.
  match goal with
  | E : ratings_loop _ JNull JNull = Ok _ |- _ => rewrite E
  end.
  cbn [rbind]. symmetry. assumption.
Qed.

(** ** Sorting the cast *)

Lemma insert_by_key_perm (k x : json) (l r : list (json * json)) :
  insert_by_key k x l = Ok r -> Permutation ((k, x) :: l) r.
Proof.
  revert r. induction l as [| [k' y] t IH]; intros r H; cbn [insert_by_key] in H.
  - injection H as <-. apply Permutation_refl.
  - inv_result H. destruct v.
    + inv_result H. injection H as <-.
      apply perm_trans with ((k', y) :: (k, x) :: t); [apply perm_swap |].
      apply perm_skip. apply IH. assumption.
    + injection H as <-. apply Permutation_refl.
Qed.

Lemma sort_pairs_perm (l r : list (json * json)) :
  sort_pairs l = Ok r -> Permutation l r.
Proof.
  revert r. induction l as [| [k x] t IH]; intros r H; cbn [sort_pairs] in H.
  - injection H as <-. apply perm_nil.
  - inv_result H.
    apply perm_trans with ((k, x) :: v); [apply perm_skip; apply IH; assumption |].
    apply insert_by_key_perm. assumption.
Qed.

Lemma rmap_keys_snd (key : json -> result json) (l : list json)
    (ks : list (json * json)) :
  rmap (fun x => (k <- key x ;; Ok (k, x))%result) l = Ok ks ->
  map snd ks = l.
Proof.
  revert ks. induction l as [| x t IH]; intros ks H; cbn [rmap] in H.
  - injection H as <-. reflexivity.
  - inv_result H. injection H as <-.
    match goal with
    | E : rbind (key x) _ = Ok _ |- _ => inv_result E; injection E as <-
    end.
    cbn [map snd]. f_equal. apply IH. assumption.
Qed.

(** [sorted] returns a rearrangement of the items. *)
Lemma sorted_by_perm (key : json -> result json) (l s : list json) :
  sorted_by key l = Ok s -> Permutation l s.
Proof.
  intros H. unfold sorted_by in H. inv_result H. injection H as <-.
  match goal with
  | E : rmap _ l = Ok ?ks |- _ => rewrite <- (rmap_keys_snd key l ks E)
  end.
  apply Permutation_map. apply sort_pairs_perm. assumption.
Qed.

(** The billing order of a cast entry, 99 when the entry has none. *)
Definition order_of (x : json) : Z :=
  match x with
  | JObj kvs =>
      match Py.lookup "order" kvs with
      | Some (JInt z) => z
      | _ => 99
      end
  | _ => 99
  end.

Definition lacks_order (x : json) : Prop :=
  exists kvs, x = JObj kvs /\ Py.lookup "order" kvs = None.

(** A cast entry as TMDB sends it: an object whose "order", when present, is
    an integer. *)
Definition billed (x : json) : Prop :=
  exists kvs,
    x = JObj kvs /\
    (Py.lookup "order" kvs = None \/
     exists z, Py.lookup "order" kvs = Some (JInt z)).

(** A stable insertion sort on the billing order, as a reference. *)
Fixpoint insert_by_order (x : json) (l : list json) : list json :=
  match l with
  | [] => [x]
  | y :: t =>
      if order_of y <? order_of x
      then y :: insert_by_order x t
      else x :: y :: t
  end.

Fixpoint sort_by_order (l : list json) : list json :=
  match l with
  | [] => []
  | x :: t => insert_by_order x (sort_by_order t)
  end.

Definition keyed (x : json) : json * json := (JInt (order_of x), x).

Lemma order_key_billed (x : json) :
  billed x -> order_key x = Ok (JInt (order_of x)).
Proof.
  intros (kvs & -> & [Hn | (z & Hz)]); unfold order_key, order_of, Py.get;
    [rewrite Hn | rewrite Hz]; reflexivity.
Qed.

Lemma lt_int (a b : Z) : Py.lt (JInt a) (JInt b) = Ok (a <? b).
Proof.
  cbn [Py.lt]. unfold Py.lt_flat.
  cbn [Py.as_num Py.as_int option_map Py.place_ltb].
  unfold Qle_bool. cbn [Qnum Qden inject_Z].
  rewrite !Z.mul_1_r. f_equal. symmetry. apply Z.ltb_antisym.
Qed.

Lemma insert_by_key_keyed (x : json) (l : list json) :
  insert_by_key (JInt (order_of x)) x (map keyed l)
  = Ok (map keyed (insert_by_order x l)).
Proof.
  induction l as [| y t IH]; [reflexivity |].
  cbn [map insert_by_key insert_by_order]. unfold keyed at 1.
  rewrite lt_int. cbn [rbind].
  destruct (order_of y <? order_of x).
  - rewrite IH. reflexivity.
  - reflexivity.
Qed.

Lemma sort_pairs_keyed (l : list json) :
  sort_pairs (map keyed l) = Ok (map keyed (sort_by_order l)).
Proof.
  induction l as [| x t IH]; [reflexivity |].
  cbn [map sort_pairs sort_by_order]. unfold keyed at 1.
  rewrite IH. cbn [rbind]. apply insert_by_key_keyed.
Qed.

Lemma rmap_order_key (l : list json) :
  Forall billed l ->
  rmap (fun x => (k <- order_key x ;; Ok (k, x))%result) l = Ok (map keyed l).
Proof.
  induction 1 as [| x t Hx Ht IH]; [reflexivity |].
  cbn [rmap map]. rewrite order_key_billed by exact Hx.
  cbn [rbind]. rewrite IH. reflexivity.
Qed.

(** On well-formed cast entries [sorted] succeeds and is the stable sort on
    the billing order. *)
Lemma sorted_by_order_key (l : list json) :
  Forall billed l -> sorted_by order_key l = Ok (sort_by_order l).
Proof.
  intros H. unfold sorted_by. rewrite rmap_order_key by exact H.
  cbn [rbind]. rewrite sort_pairs_keyed. cbn [rbind].
  rewrite map_map. cbn [keyed snd]. rewrite map_id. reflexivity.
Qed.

Definition order_le (x y : json) : Prop := order_of x <= order_of y.

Lemma insert_by_order_perm (x : json) (l : list json) :
  Permutation (x :: l) (insert_by_order x l).
Proof.
  induction l as [| y t IH]; cbn [insert_by_order]; [apply Permutation_refl |].
  destruct (order_of y <? order_of x); [| apply Permutation_refl].
  apply perm_trans with (y :: x :: t); [apply perm_swap |].
  apply perm_skip. exact IH.
Qed.

Lemma sort_by_order_perm (l : list json) : Permutation l (sort_by_order l).
Proof.
  induction l as [| x t IH]; cbn [sort_by_order]; [apply perm_nil |].
  apply perm_trans with (x :: sort_by_order t); [apply perm_skip; exact IH |].
  apply insert_by_order_perm.
Qed.

Lemma insert_by_order_sorted (x : json) (l : list json) :
  StronglySorted order_le l -> StronglySorted order_le (insert_by_order x l).
Proof.
  induction 1 as [| y t Hs IH Hall]; cbn [insert_by_order].
  - constructor; constructor.
  - destruct (order_of y <? order_of x) eqn:Hlt.
    + apply Z.ltb_lt in Hlt. constructor; [exact IH |].
      apply (Permutation_Forall (insert_by_order_perm x t)).
      constructor; [unfold order_le; lia | exact Hall].
    + apply Z.ltb_ge in Hlt. constructor.
      * constructor; assumption.
      * constructor; [exact Hlt |].
        apply Forall_impl with (P := order_le y); [| exact Hall].
        unfold order_le. intros z Hz. lia.
Qed.

Lemma sort_by_order_sorted (l : list json) :
  StronglySorted order_le (sort_by_order l).
Proof.
  induction l as [| x t IH]; cbn [sort_by_order]; [constructor |].
  apply insert_by_order_sorted. exact IH.
Qed.

(** Entries of equal billing order keep their relative order. *)
Lemma insert_by_order_stable (k : Z) (x : json) (l : list json) :
  filter (fun y => order_of y =? k) (insert_by_order x l)
  = filter (fun y => order_of y =? k) (x :: l).
Proof.
  induction l as [| y t IH]; cbn [insert_by_order]; [reflexivity |].
  destruct (order_of y <? order_of x) eqn:Hlt; [| reflexivity].
  apply Z.ltb_lt in Hlt. cbn [filter] in *. rewrite IH.
  destruct (order_of y =? k) eqn:Hy; destruct (order_of x =? k) eqn:Hx;
    try reflexivity.
  apply Z.eqb_eq in Hy, Hx. lia.
Qed.

Lemma sort_by_order_stable (k : Z) (l : list json) :
  filter (fun y => order_of y =? k) (sort_by_order l)
  = filter (fun y => order_of y =? k) l.
Proof.
  induction l as [| x t IH]; cbn [sort_by_order]; [reflexivity |].
  rewrite insert_by_order_stable. cbn [filter]. rewrite IH. reflexivity.
Qed.

Lemma sorted_after (l1 l2 : list json) (x : json) :
  StronglySorted order_le (l1 ++ x :: l2) -> Forall (order_le x) l2.
Proof.
  induction l1 as [| a t IH]; cbn [app]; intros H;
    apply StronglySorted_inv in H; destruct H as [Hs Hall].
  - exact Hall.
  - apply IH. exact Hs.
Qed.

Lemma lacks_order_99 (x : json) : lacks_order x -> order_of x = 99.
Proof.
  intros (kvs & -> & Hn). unfold order_of. rewrite Hn. reflexivity.
Qed.

(** C5, as the code has it. For a cast of well-formed entries, [sorted]
    succeeds and returns the entries in ascending billing order, 99 standing
    for a missing order, entries of equal order in their original order; so
    no entry with an order below 99 comes after an entry without one (an
    entry with an order above 99 does).  [top_cast] is the first three
    entries of that list, and the two aggregates of the record are computed
    from their popularities. *)
Theorem cast_sorted_by_billing_order
    (credits cast_all : json) (items : list json) :
  Py.get credits "cast" (JArr []) = Ok cast_all ->
  Py.iter cast_all = Ok items ->
  Forall billed items ->
  exists s,
    sorted_by order_key items = Ok s /\
    Permutation items s /\
    StronglySorted (fun x y => order_of x <= order_of y) s /\
    (forall k,
       filter (fun x => order_of x =? k) s
       = filter (fun x => order_of x =? k) items) /\
    (forall l1 x l2,
       s = l1 ++ x :: l2 -> lacks_order x ->
       Forall (fun y => 99 <= order_of y) l2) /\
    top_cast credits = Ok (firstn 3 s) /\
    (forall movie_id details rec,
       tmdb_record movie_id details credits = Ok rec ->
       exists pops,
         cast_popularities (firstn 3 s) = Ok pops /\
         Py.getitem rec "cast_popularity_mean" = popularity_mean pops /\
         Py.getitem rec "cast_popularity_max" = popularity_max pops).
Proof.
  intros Hget Hiter Hb. exists (sort_by_order items).
  assert (Htop : top_cast credits = Ok (firstn 3 (sort_by_order items))).
  { unfold top_cast. rewrite Hget. cbn [rbind]. rewrite Hiter. cbn [rbind].
    rewrite sorted_by_order_key by exact Hb. reflexivity. }
  split; [apply sorted_by_order_key; exact Hb |].
  split; [apply sort_by_order_perm |].
  split; [apply sort_by_order_sorted |].
  split; [intros k; apply sort_by_order_stable |].
  split.
  { intros l1 x l2 Hs Hx.
    pose proof (sort_by_order_sorted items) as Hsorted. rewrite Hs in Hsorted.
    apply sorted_after in Hsorted.
    apply Forall_impl with (P := order_le x); [| exact Hsorted].
    unfold order_le. rewrite (lacks_order_99 x Hx). intros y Hy. exact Hy. }
  split; [exact Htop |].
  intros movie_id details rec Hrec. unfold tmdb_record in Hrec.
  rewrite Htop in Hrec. cbn [rbind] in Hrec. inv_result Hrec.
  injection Hrec as <-. eexists. split; [eassumption |].
  split; symmetry; assumption.
Qed.

Definition cast_entry (order popularity : option Z) : json :=
  JObj (match order with Some z => [("order", JInt z)] | None => [] end
        ++ match popularity with
           | Some z => [("popularity", JInt z)]
           | None => []
           end).

Definition large_cast : list json :=
  [cast_entry (Some 100) (Some 5); cast_entry None (Some 7);
   cast_entry (Some 0) (Some 20); cast_entry (Some 1) (Some 10)].

Lemma large_cast_billed : Forall billed large_cast.
Proof.
  unfold large_cast.
  repeat (constructor;
          [eexists; split;
           [reflexivity
           | first [left; reflexivity | right; eexists; reflexivity]] |]).
  constructor.
Defined.

Lemma cast_sorted_by_billing_order_witness :
  exists s,
    sorted_by order_key large_cast = Ok s /\
    Permutation large_cast s /\
    StronglySorted (fun x y => order_of x <= order_of y) s /\
    (forall k,
       filter (fun x => order_of x =? k) s
       = filter (fun x => order_of x =? k) large_cast) /\
    (forall l1 x l2,
       s = l1 ++ x :: l2 -> lacks_order x ->
       Forall (fun y => 99 <= order_of y) l2) /\
    top_cast (JObj [("cast", JArr large_cast)]) = Ok (firstn 3 s) /\
    (forall movie_id details rec,
       tmdb_record movie_id details (JObj [("cast", JArr large_cast)]) = Ok rec ->
       exists pops,
         cast_popularities (firstn 3 s) = Ok pops /\
         Py.getitem rec "cast_popularity_mean" = popularity_mean pops /\
         Py.getitem rec "cast_popularity_max" = popularity_max pops).
Proof.
  apply (cast_sorted_by_billing_order
           (JObj [("cast", JArr large_cast)]) (JArr large_cast) large_cast).
  - reflexivity.
  - reflexivity.
  - exact large_cast_billed.
Defined.

(** C5, as the claim states it, fails: the entry billed 100 has an order and
    is sorted after the entry that has none. *)
Lemma missing_order_not_last :
  sorted_by order_key
    [cast_entry (Some 100) (Some 5); cast_entry None (Some 7)]
  = Ok [cast_entry None (Some 7); cast_entry (Some 100) (Some 5)] /\
  lacks_order (cast_entry None (Some 7)) /\
  ~ lacks_order (cast_entry (Some 100) (Some 5)).
Proof.
  split; [reflexivity |]. split.
  - eexists. split; reflexivity.
  - intros (kvs & Heq & Hn). injection Heq as <-. discriminate Hn.
Qed.

(** ** Arithmetic on popularities *)

Definition numeric (x : json) : Prop := Py.as_num x <> None.




(** What [sum] accumulates: an [int] or a [float]. *)
Definition is_sum (s : json) : Prop :=
  (exists z, s = JInt z) \/ (exists f, s = JReal f).






Lemma as_float_numeric (a : json) (r : result Py.float) :
  Py.as_float a = Some r -> numeric a.
Proof.
  unfold numeric. destruct a; cbn; intros H; try discriminate H; discriminate.
Qed.

Lemma as_int_numeric (a : json) (z : Z) : Py.as_int a = Some z -> numeric a.
Proof.
  unfold numeric. destruct a; cbn; intros H; try discriminate H; discriminate.
Qed.


Lemma add_inv (a b c : json) :
  Py.add a b = Ok c -> numeric a /\ numeric b /\ is_sum c.
Proof.
  unfold Py.add.
  destruct (Py.as_int a) as [x |] eqn:Ha; [destruct (Py.as_int b) as [y |] eqn:Hb |].
  - intros H. injection H as <-.
    split; [exact (as_int_numeric a x Ha) |].
    split; [exact (as_int_numeric b y Hb) | left; eexists; reflexivity].
  - destruct (Py.as_float a) as [ra |] eqn:Hfa; [| discriminate].
    destruct (Py.as_float b) as [rb |] eqn:Hfb; [| discriminate].
    intros H. inv_result H. injection H as <-.
    split; [exact (as_float_numeric a _ Hfa) |].
    split; [exact (as_float_numeric b _ Hfb) | right; eexists; reflexivity].
  - destruct (Py.as_float a) as [ra |] eqn:Hfa; [| discriminate].
    destruct (Py.as_float b) as [rb |] eqn:Hfb; [| discriminate].
    intros H. inv_result H. injection H as <-.
    split; [exact (as_float_numeric a _ Hfa) |].
    split; [exact (as_float_numeric b _ Hfb) | right; eexists; reflexivity].
Qed.

Lemma as_float_raises (a : json) (e : exn) :
  Py.as_float a = Some (Raise e) -> e = OverflowError.
Proof.
  destruct a as [| b | z | f | s | l | kvs]; cbn; intros H;
    try discriminate H; unfold Py.to_float in H.
  - destruct (Py.is_infinite (Py.float_of_Z (if b then 1 else 0)));
      injection H as H; [symmetry; exact H | discriminate H].
  - destruct (Py.is_infinite (Py.float_of_Z z));
      injection H as H; [symmetry; exact H | discriminate H].
Qed.

(** [+] raises nothing but [TypeError] and [OverflowError]. *)
Lemma add_raises (a b : json) (e : exn) :
  Py.add a b = Raise e -> e = TypeError \/ e = OverflowError.
Proof.
  unfold Py.add.
  assert (Hf : match Py.as_float a, Py.as_float b with
               | Some ra, Some rb =>
                   (x <- ra ;; y <- rb ;;
                    Ok (JReal (SFadd Py.prec Py.emax x y)))%result
               | _, _ => Raise TypeError
               end = Raise e -> e = TypeError \/ e = OverflowError).
  { destruct (Py.as_float a) as [[fa | ea] |] eqn:Hfa;
      [| | intros H; injection H as <-; left; reflexivity].
    - destruct (Py.as_float b) as [[fb | eb] |] eqn:Hfb; cbn [rbind];
        intros H; [discriminate H | | injection H as <-; left; reflexivity].
      injection H as <-. right. exact (as_float_raises b eb Hfb).
    - destruct (Py.as_float b) as [rb |]; cbn [rbind]; intros H;
        injection H as <-; [| left; reflexivity].
      right. exact (as_float_raises a ea Hfa). }
  destruct (Py.as_int a); [destruct (Py.as_int b) |];
    [discriminate | exact Hf | exact Hf].
Qed.



Lemma sum_from_raises (l : list json) :
  forall acc e,
    Py.sum_from acc l = Raise e -> e = TypeError \/ e = OverflowError.
Proof.
  induction l as [| x t IH]; intros acc e H; cbn [Py.sum_from] in H;
    [discriminate H |].
  destruct (Py.add acc x) as [c | e'] eqn:Hadd; cbn [rbind] in H.
  - exact (IH c e H).
  - injection H as <-. exact (add_raises acc x e' Hadd).
Qed.





Lemma is_sum_zero : is_sum (JInt 0).
Proof. left. eexists. reflexivity. Qed.





(** *** The order of numbers *)








Lemma rmap_length {A B : Type} (f : A -> result B) (l : list A) (r : list B) :
  rmap f l = Ok r -> List.length r = List.length l.
Proof.
  revert r. induction l as [| x t IH]; intros r H; cbn [rmap] in H.
  - injection H as <-. reflexivity.
  - inv_result H. injection H as <-. cbn [List.length]. f_equal.
    apply IH. assumption.
Qed.




(** ** Mean and maximum of the cast popularities *)



(** The example of the specification: popularities 10, 20 and 5; the mean
    is the double 11.666666666666666. *)
Example mean_max_example :
  popularity_mean [JInt 10; JInt 20; JInt 5]
  = Ok (JReal (S754_finite false 6567749456581973 (-49))) /\
  popularity_max [JInt 10; JInt 20; JInt 5] = Ok (JInt 20).
Proof. split; vm_compute; reflexivity. Qed.

(** Sums of floats are rounded at each step and can leave the finite range
    without raising: 0.1 + 0.2 is 0.30000000000000004, and the mean of
    1e308 and 1e308 is infinite. *)
Example float_means :
  popularity_mean
    [JReal (S754_finite false 7205759403792794 (-56));
     JReal (S754_finite false 7205759403792794 (-55))]
  = Ok (JReal (S754_finite false 5404319552844596 (-55))) /\
  popularity_mean
    [JReal (S754_finite false 5010420900022432 971);
     JReal (S754_finite false 5010420900022432 971)]
  = Ok (JReal (S754_infinity false)).
Proof. split; vm_compute; reflexivity. Qed.

(** ** Cast entries without a popularity *)

Definition is_object (c : json) : Prop := exists kvs, c = JObj kvs.

Definition lacks_popularity (c : json) : Prop :=
  exists kvs, c = JObj kvs /\ Py.lookup "popularity" kvs = None.

(** The popularity of an entry, 0 standing for a missing one. *)
Definition popularity_or_zero (c : json) : json :=
  match c with
  | JObj kvs =>
      match Py.lookup "popularity" kvs with
      | Some v => v
      | None => JInt 0
      end
  | _ => JInt 0
  end.

(** The popularities of the entries that have one. *)
Fixpoint known_popularities (cast : list json) : list json :=
  match cast with
  | [] => []
  | JObj kvs :: t =>
      match Py.lookup "popularity" kvs with
      | Some v => v :: known_popularities t
      | None => known_popularities t
      end
  | _ :: t => known_popularities t
  end.

(** Two numbers that are the same but for the sign of a float zero. *)
Definition same_number (a b : json) : Prop :=
  a = b \/ exists s s', a = JReal (S754_zero s) /\ b = JReal (S754_zero s').

(** Two outcomes that are the same exception, or the same number. *)
Definition same_outcome (r r' : result json) : Prop :=
  match r, r' with
  | Ok a, Ok b => same_number a b
  | Raise e, Raise e' => e = e'
  | _, _ => False
  end.

Lemma cast_popularities_objects (cast : list json) :
  Forall is_object cast ->
  cast_popularities cast = Ok (map popularity_or_zero cast).
Proof.
  unfold cast_popularities.
  induction 1 as [| c t (kvs & ->) Ht IH]; [reflexivity |].
  cbn [rmap map]. rewrite IH. unfold Py.get, popularity_or_zero.
  destruct (Py.lookup "popularity" kvs); reflexivity.
Qed.

Lemma lacking_zero (c : json) : lacks_popularity c -> popularity_or_zero c = JInt 0.
Proof.
  intros (kvs & -> & Hn). unfold popularity_or_zero. rewrite Hn. reflexivity.
Qed.

Lemma max_from_zeros (l : list json) :
  Forall (fun x => x = JInt 0) l -> Py.max_from (JInt 0) l = Ok (JInt 0).
Proof.
  induction 1 as [| x t -> Ht IH]; [reflexivity |].
  cbn [Py.max_from]. rewrite lt_int. cbn [rbind Z.ltb Z.compare]. exact IH.
Qed.

Lemma sum_from_zeros (l : list json) :
  Forall (fun x => x = JInt 0) l -> Py.sum_from (JInt 0) l = Ok (JInt 0).
Proof.
  induction 1 as [| x t -> Ht IH]; [reflexivity |].
  cbn [Py.sum_from Py.add Py.as_int rbind Z.add]. exact IH.
Qed.

Lemma same_number_refl (a : json) : same_number a a.
Proof. left. reflexivity. Qed.

Lemma same_outcome_refl (r : result json) : same_outcome r r.
Proof. destruct r; cbn; [apply same_number_refl | reflexivity]. Qed.

Lemma same_number_trans (a b c : json) :
  same_number a b -> same_number b c -> same_number a c.
Proof.
  intros [-> | (s & s' & -> & ->)] [<- | (t & t' & Hb & ->)].
  - left. reflexivity.
  - right. exists t, t'. split; [exact Hb | reflexivity].
  - right. exists s, s'. split; reflexivity.
  - right. exists s, t'. split; reflexivity.
Qed.

Lemma same_outcome_trans (r1 r2 r3 : result json) :
  same_outcome r1 r2 -> same_outcome r2 r3 -> same_outcome r1 r3.
Proof.
  destruct r1; destruct r2; destruct r3; cbn; intros H1 H2;
    try contradiction; [apply same_number_trans with a0; assumption | congruence].
Qed.

(** The sign of a zero accumulator does not show in what is added to it. *)
Lemma add_same (a a' x : json) :
  same_number a a' -> same_outcome (Py.add a x) (Py.add a' x).
Proof.
  intros [-> | (s & s' & -> & ->)]; [apply same_outcome_refl |].
  unfold Py.add. cbn [Py.as_int Py.as_float].
  destruct (Py.as_float x) as [[y | e] |]; cbn [rbind same_outcome];
    try reflexivity.
  destruct y as [[|] | [|] | | sy my ey]; destruct s; destruct s';
    cbn [SFadd]; first [left; reflexivity | right; do 2 eexists; split; reflexivity].
Qed.

Lemma sum_from_same (l : list json) :
  forall a a' : json,
    same_number a a' -> same_outcome (Py.sum_from a l) (Py.sum_from a' l).
Proof.
  induction l as [| x t IH]; intros a a' H; cbn [Py.sum_from]; [exact H |].
  pose proof (add_same a a' x H) as Hadd.
  destruct (Py.add a x) as [c | e]; destruct (Py.add a' x) as [c' | e'];
    cbn [same_outcome rbind] in *; try contradiction.
  - apply IH. exact Hadd.
  - exact Hadd.
Qed.

(** Adding the integer 0 leaves an accumulator as it is. *)
Lemma add_zero (acc : json) :
  is_sum acc -> exists c, Py.add acc (JInt 0) = Ok c /\ same_number c acc.
Proof.
  intros [(z & ->) | (f & ->)].
  - exists (JInt z). split; [| apply same_number_refl].
    cbn [Py.add Py.as_int]. rewrite Z.add_0_r. reflexivity.
  - unfold Py.add. cbn [Py.as_int Py.as_float option_map].
    change (Py.to_float 0) with (Ok (S754_zero false) : result Py.float).
    cbn [rbind]. eexists. split; [reflexivity |].
    destruct f as [[|] | [|] | | s m e]; cbn [SFadd];
      first [left; reflexivity | right; do 2 eexists; split; reflexivity].
Qed.

(** The zeros of the entries without popularity add nothing to the sum. *)
Lemma sum_from_known (cast : list json) :
  Forall is_object cast ->
  forall acc : json,
    is_sum acc ->
    same_outcome (Py.sum_from acc (map popularity_or_zero cast))
                 (Py.sum_from acc (known_popularities cast)).
Proof.
  induction 1 as [| c t (kvs & ->) Ht IH]; intros acc Hacc;
    [apply same_outcome_refl |].
  cbn [map popularity_or_zero known_popularities].
  destruct (Py.lookup "popularity" kvs) as [v |].
  - cbn [Py.sum_from].
    destruct (Py.add acc v) as [c | e] eqn:Hadd; cbn [rbind];
      [| reflexivity].
    apply IH. apply (add_inv acc v c Hadd).
  - cbn [Py.sum_from].
    destruct (add_zero acc Hacc) as (c & -> & Hc). cbn [rbind].
    apply same_outcome_trans with (Py.sum_from acc (map popularity_or_zero t)).
    + apply sum_from_same. exact Hc.
    + apply IH. exact Hacc.
Qed.

Lemma truediv_len_same (s s' : json) (n : nat) :
  same_number s s' ->
  same_outcome (Py.truediv_len s n) (Py.truediv_len s' n).
Proof.
  intros [-> | (z & z' & -> & ->)]; [apply same_outcome_refl |].
  cbn [Py.truediv_len]. destruct n as [| n']; [reflexivity |].
  destruct (Py.to_float (Z.of_nat (S n'))) as [d | e]; cbn [rbind same_outcome];
    [| reflexivity].
  destruct d as [[|] | [|] | | sd md ed]; destruct z; destruct z';
    cbn [SFdiv xorb];
    first [left; reflexivity | right; do 2 eexists; split; reflexivity].
Qed.

(** C10, as the code has it. An entry without popularity contributes the
    integer 0 to the popularity list; a non-empty cast whose entries all lack
    popularity has the mean 0.0, which equals 0, and the maximum 0; and in
    general the zeros add nothing to the sum while their entries count in
    the divisor: the mean is the sum of the popularities that are present
    divided by the number of entries kept (up to the sign of a zero). *)
Theorem missing_popularity_counts_as_zero :
  (forall cast : list json,
     Forall is_object cast ->
     cast_popularities cast = Ok (map popularity_or_zero cast)) /\
  (forall c : json, lacks_popularity c -> popularity_or_zero c = JInt 0) /\
  (forall cast : list json,
     cast <> [] -> Forall lacks_popularity cast ->
     exists pops,
       cast_popularities cast = Ok pops /\
       popularity_mean pops = Ok (JReal (S754_zero false)) /\
       Py.eq (JReal (S754_zero false)) (JInt 0) = true /\
       popularity_max pops = Ok (JInt 0)) /\
  (forall cast : list json,
     cast <> [] -> Forall is_object cast ->
     same_outcome
       (pops <- cast_popularities cast ;; popularity_mean pops)%result
       (s <- Py.sum (known_popularities cast) ;;
        Py.truediv_len s (List.length cast))%result).
Proof.
  split; [exact cast_popularities_objects |].
  split; [exact lacking_zero |]. split.
  - intros cast Hne Hall.
    assert (Hobj : Forall is_object cast).
    { apply Forall_impl with (P := lacks_popularity); [| exact Hall].
      intros c (kvs & -> & _). exists kvs. reflexivity. }
    assert (Hz : Forall (fun x => x = JInt 0) (map popularity_or_zero cast)).
    { apply Forall_map. apply Forall_impl with (P := lacks_popularity);
        [exact lacking_zero | exact Hall]. }
    exists (map popularity_or_zero cast).
    split; [apply cast_popularities_objects; exact Hobj |].
    destruct (map popularity_or_zero cast) as [| x t] eqn:Hpops.
    { destruct cast; [contradiction Hne; reflexivity | discriminate Hpops]. }
    split; [| split; [reflexivity |]].
    + unfold popularity_mean, Py.sum. rewrite (sum_from_zeros _ Hz).
      cbn [rbind List.length Py.truediv_len Py.as_int]. reflexivity.
    + inversion Hz as [| ? ? Hx Ht]; subst.
      unfold popularity_max, Py.max. apply max_from_zeros. exact Ht.
  - intros cast Hne Hobj.
    rewrite (cast_popularities_objects cast Hobj). cbn [rbind].
    destruct cast as [| c t]; [contradiction Hne; reflexivity |].
    unfold popularity_mean, Py.sum.
    change (map popularity_or_zero (c :: t))
      with (popularity_or_zero c :: map popularity_or_zero t).
    cbv iota.
    change (popularity_or_zero c :: map popularity_or_zero t)
      with (map popularity_or_zero (c :: t)).
    rewrite length_map.
    pose proof (sum_from_known (c :: t) Hobj (JInt 0) is_sum_zero) as Hsum.
    destruct (Py.sum_from (JInt 0) (map popularity_or_zero (c :: t)))
      as [s | e];
      destruct (Py.sum_from (JInt 0) (known_popularities (c :: t)))
      as [s' | e'];
      cbn [same_outcome rbind] in *; try contradiction.
    + apply truediv_len_same. exact Hsum.
    + exact Hsum.
Qed.

Definition unpopular_cast : list json :=
  [cast_entry (Some 0) (Some 0); cast_entry (Some 1) None].

(** C10, as the claim states it, fails: the second entry lacks popularity,
    yet the mean is the mean of the popularities that are present. *)
Lemma missing_popularity_keeps_mean :
  Exists lacks_popularity unpopular_cast /\
  known_popularities unpopular_cast = [JInt 0] /\
  (pops <- cast_popularities unpopular_cast ;; popularity_mean pops)%result
  = Ok (JReal (S754_zero false)) /\
  popularity_mean (known_popularities unpopular_cast)
  = Ok (JReal (S754_zero false)).
Proof.
  split.
  { apply Exists_cons_tl. apply Exists_cons_hd.
    eexists. split; reflexivity. }
  split; [reflexivity |]. split; reflexivity.
Qed.

(** With integer popularities 10 and 20 and a third entry without one, the
    mean is 10.0 instead of 15.0. *)
Example missing_popularity_example :
  (pops <- cast_popularities
             [cast_entry (Some 0) (Some 10); cast_entry (Some 1) (Some 20);
              cast_entry (Some 2) None] ;;
   popularity_mean pops)%result
  = Ok (JReal (S754_finite false 5629499534213120 (-49))) /\
  popularity_mean [JInt 10; JInt 20]
  = Ok (JReal (S754_finite false 8444249301319680 (-49))).
Proof. split; vm_compute; reflexivity. Qed.

(** ** The scrape loop *)

Lemma get_omdb_record_effects (server : nat -> request -> result response)
    (py_float : json -> result json) (imdb_id : json) (w : world) :
  sink (snd (get_omdb_record server py_float imdb_id w)) = sink w /\
  console (snd (get_omdb_record server py_float imdb_id w)) = console w.
Proof.
  unfold get_omdb_record, bind, http_get, lift, ret.
  destruct (Py.truthy imdb_id); cbn [negb]; [| split; reflexivity].
  destruct (server (List.length (requests w)) (OmdbGet imdb_id)) as [r | e];
    [| split; reflexivity].
  destruct (status_code r =? 200); cbn [negb]; [| split; reflexivity].
  destruct (response_json r) as [data | e]; [| split; reflexivity].
  destruct (Py.get data "Response" JNull) as [resp | e]; [| split; reflexivity].
  destruct (Py.eq_str resp "True"); split; reflexivity.
Qed.

(** Building the merged record writes and prints nothing. *)
Lemma merged_record_effects (server : nat -> request -> result response)
    (py_float : json -> result json) (movie_id : json) (w : world) :
  sink (snd (merged_record server py_float movie_id w)) = sink w /\
  console (snd (merged_record server py_float movie_id w)) = console w.
Proof.
  unfold merged_record, bind.
  destruct (get_tmdb_record_spec server movie_id w)
    as (res & w1 & -> & Hs & Hc & _ & _).
  destruct res as [tmdb_data | e]; [| split; assumption].
  unfold lift.
  destruct (Py.get tmdb_data "imdb_id" JNull) as [imdb_id | e];
    [| split; assumption].
  pose proof (get_omdb_record_effects server py_float imdb_id w1) as (Hs2 & Hc2).
  destruct (get_omdb_record server py_float imdb_id w1) as [[omdb | e] w2];
    cbn [snd] in *; split; congruence.
Qed.

(** What one turn of the loop leaves behind, from the outcome of the [try]
    body. *)
Definition written (outcome : result json) : list json :=
  match outcome with
  | Ok record => [record]
  | Raise _ => []
  end.

Definition reported (i : nat) (movie_id : json) (outcome : result json) : event :=
  match outcome with
  | Ok _ => Scraped i
  | Raise e => Failed movie_id e
  end.

Lemma scrape_movie_spec (server : nat -> request -> result response)
    (py_float : json -> result json) (i : nat) (movie_id : json) (w : world) :
  exists w',
    scrape_movie server py_float i movie_id w = (Ok tt, w') /\
    sink w' = sink w ++ written (fst (merged_record server py_float movie_id w)) /\
    console w'
    = console w
      ++ [reported i movie_id (fst (merged_record server py_float movie_id w))].
Proof.
  pose proof (merged_record_effects server py_float movie_id w) as (Hs & Hc).
  unfold scrape_movie, try_except, bind.
  destruct (merged_record server py_float movie_id w) as [[record | e] w1];
    cbn [fst snd written reported] in *.
  - unfold write_line, print. cbn [sink console requests].
    eexists. split; [reflexivity |]. cbn [sink console].
    rewrite Hs, Hc. split; reflexivity.
  - unfold print. eexists. split; [reflexivity |]. cbn [sink console].
    rewrite Hs, Hc, app_nil_r. split; reflexivity.
Qed.

(** The outcomes of the [try] body for the candidates of a run, in order. *)
Fixpoint outcomes (server : nat -> request -> result response)
    (py_float : json -> result json) (i : nat) (movie_ids : list json)
    (w : world) : list (result json) :=
  match movie_ids with
  | [] => []
  | movie_id :: t =>
      fst (merged_record server py_float movie_id w)
      :: outcomes server py_float (S i) t
           (snd (scrape_movie server py_float i movie_id w))
  end.

Definition is_failure (outcome : result json) : bool :=
  match outcome with
  | Ok _ => false
  | Raise _ => true
  end.

Definition is_failed_event (e : event) : bool :=
  match e with
  | Failed _ _ => true
  | _ => false
  end.

Definition is_scraped_event (e : event) : bool :=
  match e with
  | Scraped _ => true
  | _ => false
  end.

Definition failures (os : list (result json)) : nat :=
  List.length (filter is_failure os).

(** The lines printed for the candidates, from index [i] on. *)
Fixpoint reports (i : nat) (movie_ids : list json) (os : list (result json))
  : list event :=
  match movie_ids, os with
  | movie_id :: t, o :: os' => reported i movie_id o :: reports (S i) t os'
  | _, _ => []
  end.

Lemma outcomes_length (server : nat -> request -> result response)
    (py_float : json -> result json) (movie_ids : list json) :
  forall i w,
    List.length (outcomes server py_float i movie_ids w) = List.length movie_ids.
Proof.
  induction movie_ids as [| movie_id t IH]; intros i w; [reflexivity |].
  cbn [outcomes List.length]. rewrite IH. reflexivity.
Qed.

Lemma written_length (os : list (result json)) :
  (List.length (flat_map written os) + failures os = List.length os)%nat.
Proof.
  unfold failures. induction os as [| [r | e] t IH]; [reflexivity | |];
    cbn [flat_map written app filter is_failure List.length]; lia.
Qed.

Lemma reports_counts (movie_ids : list json) :
  forall i os,
    List.length os = List.length movie_ids ->
    List.length (filter is_failed_event (reports i movie_ids os)) = failures os /\
    (List.length (filter is_scraped_event (reports i movie_ids os)) + failures os
     = List.length os)%nat.
Proof.
  unfold failures.
  induction movie_ids as [| movie_id t IH]; intros i [| o os'] Hlen;
    try discriminate Hlen; [split; reflexivity |].
  injection Hlen as Hlen. destruct (IH (S i) os' Hlen) as (H1 & H2).
  destruct o as [r | e];
    cbn [reports reported filter is_failed_event is_scraped_event is_failure
         List.length]; split; lia.
Qed.

Lemma reports_length (movie_ids : list json) :
  forall i os,
    List.length os = List.length movie_ids ->
    List.length (reports i movie_ids os) = List.length movie_ids.
Proof.
  induction movie_ids as [| m t IH]; intros i [| o os] Hlen;
    try discriminate Hlen; [reflexivity |].
  cbn [reports List.length]. f_equal. apply IH.
  injection Hlen as Hlen. exact Hlen.
Qed.

(** The loop always runs to its end: it writes the records of the candidates
    whose body returned, in order, and prints one line per candidate. *)
Lemma scrape_loop_spec (server : nat -> request -> result response)
    (py_float : json -> result json) (movie_ids : list json) :
  forall i w,
  exists w',
    scrape_loop server py_float i movie_ids w = (Ok tt, w') /\
    sink w' = sink w ++ flat_map written (outcomes server py_float i movie_ids w) /\
    console w'
    = console w ++ reports i movie_ids (outcomes server py_float i movie_ids w).
Proof.
  induction movie_ids as [| movie_id t IH]; intros i w.
  - exists w. cbn [scrape_loop outcomes flat_map reports].
    rewrite !app_nil_r. repeat split; reflexivity.
  - destruct (scrape_movie_spec server py_float i movie_id w)
      as (w1 & Hm & Hs1 & Hc1).
    cbn [scrape_loop outcomes]. unfold bind. rewrite Hm. cbn [snd].
    destruct (IH (S i) w1) as (w' & Hl & Hs & Hc).
    exists w'. split; [exact Hl |].
    cbn [flat_map reports]. rewrite Hs, Hs1, Hc, Hc1, <- !app_assoc.
    split; reflexivity.
Qed.

(** C3. When the body of the loop raises for exactly one of the [N]
    candidates, the loop still returns normally: the sink has grown by the
    [N - 1] records of the other candidates and by nothing else, one
    "Failed" line and [N - 1] "Scraped" lines have been printed, one line per
    candidate. *)
Theorem one_failure_skips_one_record
    (server : nat -> request -> result response)
    (py_float : json -> result json)
    (i : nat) (movie_ids : list json) (w : world) :
  failures (outcomes server py_float i movie_ids w) = 1%nat ->
  exists w' new_lines,
    scrape_loop server py_float i movie_ids w = (Ok tt, w') /\
    sink w' = sink w ++ flat_map written (outcomes server py_float i movie_ids w) /\
    (List.length (sink w') + 1 = List.length (sink w) + List.length movie_ids)%nat /\
    console w' = console w ++ new_lines /\
    List.length new_lines = List.length movie_ids /\
    List.length (filter is_failed_event new_lines) = 1%nat /\
    (List.length (filter is_scraped_event new_lines) + 1
     = List.length movie_ids)%nat.
Proof.
  intros Hone.
  destruct (scrape_loop_spec server py_float movie_ids i w)
    as (w' & Hl & Hs & Hc).
  pose proof (outcomes_length server py_float movie_ids i w) as Hlen.
  pose proof (written_length (outcomes server py_float i movie_ids w)) as Hw.
  destruct (reports_counts movie_ids i _ Hlen) as (Hf & Hsc).
  exists w', (reports i movie_ids (outcomes server py_float i movie_ids w)).
  split; [exact Hl |]. split; [exact Hs |]. split.
  { rewrite Hs, length_app. lia. }
  split; [exact Hc |]. split.
  { apply reports_length. exact Hlen. }
  split; lia.
Qed.

Definition server_one_bad (n : nat) (req : request) : result response :=
  match req with
  | TmdbGet (MovieDetails (JInt 2)) => Ok (mkResponse 404 None)
  | TmdbGet (MovieDetails _) =>
      Ok (mkResponse 200 (Some (JObj [("title", JStr "Test Film")])))
  | TmdbGet (MovieCredits _) => Ok (mkResponse 200 (Some (JObj [])))
  | _ => Raise ConnectionError
  end.

Definition no_float (x : json) : result json := Raise ValueError.

Lemma one_failure_skips_one_record_witness :
  exists w' new_lines,
    scrape_loop server_one_bad no_float 1 [JInt 1; JInt 2; JInt 3] empty_world
    = (Ok tt, w') /\
    sink w'
    = sink empty_world
      ++ flat_map written
           (outcomes server_one_bad no_float 1 [JInt 1; JInt 2; JInt 3]
              empty_world) /\
    (List.length (sink w') + 1
     = List.length (sink empty_world)
       + List.length [JInt 1; JInt 2; JInt 3])%nat /\
    console w' = console empty_world ++ new_lines /\
    List.length new_lines = List.length [JInt 1; JInt 2; JInt 3] /\
    List.length (filter is_failed_event new_lines) = 1%nat /\
    (List.length (filter is_scraped_event new_lines) + 1
     = List.length [JInt 1; JInt 2; JInt 3])%nat.
Proof.
  apply (one_failure_skips_one_record server_one_bad no_float 1
           [JInt 1; JInt 2; JInt 3] empty_world).
  reflexivity.
Defined.

(** The run of the witness: the second candidate fails with an HTTP error. *)
Example one_bad_run :
  console (snd (scrape_loop server_one_bad no_float 1
                  [JInt 1; JInt 2; JInt 3] empty_world))
  = [Scraped 1; Failed (JInt 2) HTTPError; Scraped 3].
Proof. reflexivity. Qed.

(** ** The Rotten Tomatoes score in the record and in the loop *)





(** The sentinel is recognised in "imdbRating", "imdbVotes" and "BoxOffice",
    not in a rating entry. *)
Example rotten_tomatoes_sentinel :
  rotten_tomatoes_score [rating_entry "Rotten Tomatoes" "N/A"]
  = Raise ValueError /\
  box_office_field (JObj [("BoxOffice", JStr "N/A")]) = Ok JNull.
Proof. split; reflexivity. Qed.

Definition server_fresh (n : nat) (req : request) : result response :=
  match req with
  | TmdbGet (MovieDetails _) =>
      Ok (mkResponse 200
            (Some (JObj [("title", JStr "Test Film");
                         ("imdb_id", JStr "tt0000001")])))
  | TmdbGet (MovieCredits _) => Ok (mkResponse 200 (Some (JObj [])))
  | TmdbGet (DiscoverMovie _ _) => Raise ConnectionError
  | OmdbGet _ =>
      Ok (mkResponse 200
            (Some (JObj [("Response", JStr "True");
                         ("Ratings",
                          JArr [rating_entry "Rotten Tomatoes" "Fresh"])])))
  end.

(** A candidate whose Rotten Tomatoes entry reads "Fresh" is skipped. *)
Example fresh_candidate_skipped :
  scrape_movie server_fresh no_float 1 (JInt 7) empty_world
  = (Ok tt,
     mkWorld
       [TmdbGet (MovieDetails (JInt 7)); TmdbGet (MovieCredits (JInt 7));
        OmdbGet (JStr "tt0000001")]
       []
       [Failed (JInt 7) ValueError]).
Proof. reflexivity. Qed.

(** ** Discovery *)

Lemma place_eqb_refl (x : Py.place) : Py.place_eqb x x = true.
Proof. destruct x; cbn; try reflexivity. unfold Qeq_bool. apply Z.eqb_refl. Qed.

Lemma place_eqb_sym (x y : Py.place) : Py.place_eqb x y = Py.place_eqb y x.
Proof.
  destruct x; destruct y; cbn; try reflexivity.
  unfold Qeq_bool. apply Z.eqb_sym.
Qed.

Lemma eq_reflexive (x : json) : hashable x = true -> Py.eq x x = true.
Proof.
  destruct x; cbn; intros H; try reflexivity; try discriminate H.
  - unfold Qeq_bool. apply Z.eqb_refl.
  - unfold Qeq_bool. apply Z.eqb_refl.
  - apply place_eqb_refl.
  - apply String.eqb_refl.
Qed.

Lemma eq_symmetric (a b : json) : Py.eq a b = Py.eq b a.
Proof.
  unfold Py.eq.
  destruct (Py.as_num a) as [x |]; destruct (Py.as_num b) as [y |];
    try reflexivity.
  - apply place_eqb_sym.
  - destruct a; destruct b; try reflexivity. apply String.eqb_sym.
Qed.

(** An identifier of the usual kind: an integer or a string. *)
Definition plain_id (x : json) : Prop :=
  match x with
  | JInt _ | JStr _ => True
  | _ => False
  end.

Lemma eq_plain (x y : json) :
  plain_id x -> plain_id y -> Py.eq x y = true -> x = y.
Proof.
  destruct x; destruct y; cbn; intros Hx Hy H;
    try contradiction; try discriminate H.
  - unfold Qeq_bool in H. cbn in H. apply Z.eqb_eq in H. f_equal. lia.
  - apply String.eqb_eq in H. f_equal. exact H.
Qed.

(** No two elements of a set are equal under [==]. *)
Definition distinct (s : pyset) : Prop :=
  ForallOrdPairs (fun a b => Py.eq b a = false) s.

(** The set [s] holds the identifiers [found] so far, each once. *)
Record covers (s : pyset) (found : list json) : Prop := mkCovers {
  covers_hashable : Forall (fun x => hashable x = true) s;
  covers_distinct : distinct s;
  covers_sound : forall x, In x s -> In x found;
  covers_complete : forall x, In x found -> exists y, In y s /\ Py.eq x y = true;
  covers_size : (List.length s <= List.length found)%nat
}.

Lemma covers_empty : covers [] [].
Proof.
  constructor; try constructor.
  - intros x H. exact H.
  - intros x H. contradiction H.
Qed.

Lemma distinct_snoc (s : pyset) (x : json) :
  distinct s -> Forall (fun a => Py.eq x a = false) s -> distinct (s ++ [x]).
Proof.
  unfold distinct. induction 1 as [| a t Ha Ht IH]; intros Hx; cbn [app].
  - constructor; constructor.
  - inversion Hx as [| ? ? Hxa Hxt]; subst. constructor.
    + apply Forall_app. split; [exact Ha | constructor; [exact Hxa | constructor]].
    + apply IH. exact Hxt.
Qed.

Lemma set_add_covers (x : json) (s s' : pyset) (found : list json) :
  set_add x s = Ok s' -> covers s found -> covers s' (found ++ [x]).
Proof.
  unfold set_add. intros H [Hh Hd Hs Hc Hn].
  destruct (hashable x) eqn:Hx; [| discriminate H]. injection H as <-.
  destruct (existsb (Py.eq x) s) eqn:Hex.
  - apply existsb_exists in Hex. destruct Hex as (y & Hy & Hxy).
    constructor; try assumption.
    + intros z Hz. apply in_or_app. left. apply Hs. exact Hz.
    + intros z Hz. apply in_app_or in Hz. destruct Hz as [Hz | [<- | []]].
      * apply Hc. exact Hz.
      * exists y. split; assumption.
    + rewrite length_app. cbn [List.length]. lia.
  - assert (Hnot : Forall (fun a => Py.eq x a = false) s).
    { apply Forall_forall. intros a Ha.
      destruct (Py.eq x a) eqn:Hxa; [| reflexivity].
      rewrite <- Hex. symmetry. apply existsb_exists. exists a. split; assumption. }
    constructor.
    + apply Forall_app. split; [exact Hh | constructor; [exact Hx | constructor]].
    + apply distinct_snoc; assumption.
    + intros z Hz. apply in_app_or in Hz. apply in_or_app.
      destruct Hz as [Hz | Hz]; [left; apply Hs; exact Hz | right; exact Hz].
    + intros z Hz. apply in_app_or in Hz. destruct Hz as [Hz | [<- | []]].
      * destruct (Hc z Hz) as (y & Hy & Hzy). exists y.
        split; [apply in_or_app; left; exact Hy | exact Hzy].
      * exists x. split; [apply in_or_app; right; left; reflexivity |].
        apply eq_reflexive. exact Hx.
    + rewrite !length_app. cbn [List.length]. lia.
Qed.

(** The identifiers of a list of results. *)
Definition ids_of (ms : list json) : list json :=
  flat_map (fun m => match Py.getitem m "id" with
                     | Ok v => [v]
                     | Raise _ => []
                     end) ms.

Lemma ids_of_length (ms : list json) :
  (List.length (ids_of ms) <= List.length ms)%nat.
Proof.
  unfold ids_of. induction ms as [| m t IH]; [apply Nat.le_refl |].
  cbn [flat_map]. rewrite length_app. cbn [List.length].
  destruct (Py.getitem m "id"); cbn [List.length]; lia.
Qed.

Lemma add_results_covers (ms : list json) :
  forall (s s' : pyset) (found : list json),
    add_results ms s = Ok s' -> covers s found ->
    covers s' (found ++ ids_of ms).
Proof.
  induction ms as [| m t IH]; intros s s' found H Hc; cbn [add_results] in H.
  - injection H as <-. unfold ids_of. cbn [flat_map]. rewrite app_nil_r. exact Hc.
  - inv_result H.
    match goal with
    | Eid : Py.getitem m "id" = Ok ?id, Es : set_add ?id s = Ok ?s1 |- _ =>
        pose proof (set_add_covers id s s1 found Es Hc) as Hc1;
        pose proof (IH s1 s' (found ++ [id]) H Hc1) as Hc2;
        unfold ids_of in *; cbn [flat_map]; rewrite Eid
    end.
    rewrite <- app_assoc in Hc2. exact Hc2.
Qed.

(** The results of one discover response (none when the request fails or the
    payload has no list of results). *)
Definition results_of (r : result response) : list json :=
  match r with
  | Ok rd =>
      match body rd with
      | Some data =>
          match Py.get data "results" (JArr []) with
          | Ok results =>
              match Py.iter results with
              | Ok ms => ms
              | Raise _ => []
              end
          | Raise _ => []
          end
      | None => []
      end
  | Raise _ => []
  end.

(** The results the server returns to a sequence of requests, the first of
    which is the [n]-th request of the run. *)
Fixpoint fetched_results (server : nat -> request -> result response)
    (n : nat) (es : list endpoint) : list json :=
  match es with
  | [] => []
  | e :: t =>
      results_of (server n (TmdbGet e)) ++ fetched_results server (S n) t
  end.

(** The requests of [discover_movies], in order. *)
Definition discover_requests (start_year end_year pages_per_year : Z)
  : list endpoint :=
  flat_map (fun year =>
              map (fun page => DiscoverMovie year page)
                (Py.range 1 (pages_per_year + 1)))
    (Py.range start_year (end_year + 1)).

Lemma fetched_results_app (server : nat -> request -> result response)
    (l1 l2 : list endpoint) :
  forall n,
    fetched_results server n (l1 ++ l2)
    = fetched_results server n l1
      ++ fetched_results server (n + List.length l1) l2.
Proof.
  induction l1 as [| e t IH]; intros n; cbn [app fetched_results List.length].
  - rewrite Nat.add_0_r. reflexivity.
  - rewrite IH, <- app_assoc, Nat.add_succ_r. reflexivity.
Qed.

Lemma ids_of_app (l1 l2 : list json) :
  ids_of (l1 ++ l2) = ids_of l1 ++ ids_of l2.
Proof. unfold ids_of. apply flat_map_app. Qed.

Lemma discover_page_covers (server : nat -> request -> result response)
    (year page : Z) (s s' : pyset) (w w' : world) (found : list json) :
  discover_page server year page s w = (Ok s', w') ->
  covers s found ->
  covers s' (found
             ++ ids_of (results_of
                          (server (List.length (requests w))
                             (TmdbGet (DiscoverMovie year page))))) /\
  List.length (requests w') = S (List.length (requests w)).
Proof.
  intros H Hc. unfold discover_page, bind in H.
  destruct (tmdb_get_spec server (DiscoverMovie year page) w)
    as (res & Heq & Hres).
  rewrite Heq in H. destruct res as [data | e]; [| discriminate H].
  destruct (Hres data eq_refl) as (rd & Hrd & _ & Hbody).
  unfold print, lift in H. cbn [requests sink console] in H.
  destruct (Py.get data "results" (JArr [])) as [results | e] eqn:Hget;
    [| discriminate H].
  destruct (Py.iter results) as [ms | e] eqn:Hiter; [| discriminate H].
  injection H as Hadd <-. cbn [requests].
  split.
  - unfold results_of. rewrite Hrd, Hbody, Hget, Hiter.
    exact (add_results_covers ms s s' found Hadd Hc).
  - rewrite length_app. cbn [List.length]. lia.
Qed.

Lemma page_loop_covers (server : nat -> request -> result response)
    (year : Z) (pages : list Z) :
  forall (s s' : pyset) (w w' : world) (found : list json),
    for_each pages (fun page ids => discover_page server year page ids) s w
    = (Ok s', w') ->
    covers s found ->
    covers s' (found
               ++ ids_of (fetched_results server (List.length (requests w))
                            (map (fun page => DiscoverMovie year page) pages))) /\
    List.length (requests w')
    = (List.length (requests w) + List.length pages)%nat.
Proof.
  induction pages as [| page t IH]; intros s s' w w' found H Hc;
    cbn [for_each map fetched_results List.length] in *.
  - injection H as <- <-. unfold ids_of. cbn [flat_map].
    rewrite app_nil_r, Nat.add_0_r. split; [exact Hc | reflexivity].
  - apply bind_ok in H. destruct H as (s1 & w1 & Hpage & Hrest).
    destruct (discover_page_covers _ _ _ _ _ _ _ _ Hpage Hc) as (Hc1 & Hn1).
    destruct (IH _ _ _ _ _ Hrest Hc1) as (Hc2 & Hn2).
    rewrite Hn1 in Hc2, Hn2. rewrite ids_of_app, app_assoc.
    split; [exact Hc2 | lia].
Qed.

Lemma year_loop_covers (server : nat -> request -> result response)
    (pages : list Z) (years : list Z) :
  forall (s s' : pyset) (w w' : world) (found : list json),
    for_each years
      (fun year ids =>
         for_each pages (fun page ids => discover_page server year page ids) ids)
      s w
    = (Ok s', w') ->
    covers s found ->
    covers s'
      (found
       ++ ids_of (fetched_results server (List.length (requests w))
                    (flat_map (fun year =>
                                 map (fun page => DiscoverMovie year page) pages)
                       years))).
Proof.
  induction years as [| year t IH]; intros s s' w w' found H Hc;
    cbn [for_each flat_map] in *.
  - injection H as <- <-. unfold ids_of. cbn [fetched_results flat_map].
    rewrite app_nil_r. exact Hc.
  - apply bind_ok in H. destruct H as (s1 & w1 & Hyear & Hrest).
    destruct (page_loop_covers _ _ _ _ _ _ _ _ Hyear Hc) as (Hc1 & Hn1).
    pose proof (IH _ _ _ _ _ Hrest Hc1) as Hc2.
    rewrite fetched_results_app, ids_of_app, length_map, app_assoc, <- Hn1.
    exact Hc2.
Qed.

Lemma distinct_NoDup (s : pyset) :
  Forall (fun x => hashable x = true) s -> distinct s -> NoDup s.
Proof.
  unfold distinct. intros Hh Hd. induction Hd as [| a t Ha Ht IH].
  - constructor.
  - inversion Hh as [| ? ? Hha Hht]; subst. constructor; [| apply IH; exact Hht].
    intros Hin. rewrite Forall_forall in Ha. specialize (Ha a Hin).
    rewrite eq_reflexive in Ha by exact Hha. discriminate Ha.
Qed.

Lemma distinct_eq (s : pyset) (a b : json) :
  distinct s -> In a s -> In b s -> Py.eq a b = true -> a = b.
Proof.
  intros Hd Ha Hb Hab.
  destruct (ForallOrdPairs_In Hd a b Ha Hb) as [Heq | [H | H]].
  - exact Heq.
  - rewrite eq_symmetric in H. congruence.
  - congruence.
Qed.

(** C7. Whatever the years, the pages and the responses, when discovery
    returns, any listing [l] of the returned set has no duplicates (no two
    of its elements are even equal under [==]), holds only identifiers of
    the results fetched, holds every such identifier up to [==] (exactly
    those identifiers when they are integers or strings), and is no longer
    than the list of results fetched. *)
Theorem discovery_collects_distinct_ids
    (server : nat -> request -> result response)
    (start_year end_year pages_per_year : Z)
    (w w' : world) (s : pyset) (l : list json) :
  discover_movies server start_year end_year pages_per_year w = (Ok s, w') ->
  Permutation l s ->
  let found :=
    fetched_results server (List.length (requests w))
      (discover_requests start_year end_year pages_per_year) in
  NoDup l /\
  (forall a b, In a l -> In b l -> Py.eq a b = true -> a = b) /\
  (forall x, In x l -> In x (ids_of found)) /\
  (forall x, In x (ids_of found) -> exists y, In y l /\ Py.eq x y = true) /\
  (Forall plain_id (ids_of found) ->
   forall x, In x l <-> In x (ids_of found)) /\
  (List.length l <= List.length found)%nat.
Proof.
  intros H Hperm found. unfold discover_movies in H.
  pose proof (year_loop_covers server _ _ _ _ _ _ [] H covers_empty) as Hc.
  cbn [app] in Hc. fold (discover_requests start_year end_year pages_per_year) in Hc.
  fold found in Hc. destruct Hc as [Hh Hd Hs Hcomp Hn].
  assert (Hin : forall x, In x l <-> In x s).
  { intros x. split; apply Permutation_in;
      [exact Hperm | apply Permutation_sym; exact Hperm]. }
  split.
  { apply (Permutation_NoDup (Permutation_sym Hperm)).
    apply distinct_NoDup; assumption. }
  split.
  { intros a b Ha Hb. apply (distinct_eq s); [exact Hd | |]; apply Hin; assumption. }
  split.
  { intros x Hx. apply Hs. apply Hin. exact Hx. }
  split.
  { intros x Hx. destruct (Hcomp x Hx) as (y & Hy & Hxy).
    exists y. split; [apply Hin; exact Hy | exact Hxy]. }
  split.
  { intros Hplain x. split.
    - intros Hx. apply Hs. apply Hin. exact Hx.
    - intros Hx. destruct (Hcomp x Hx) as (y & Hy & Hxy).
      rewrite Forall_forall in Hplain.
      rewrite (eq_plain x y (Hplain x Hx) (Hplain y (Hs y Hy)) Hxy).
      apply Hin. exact Hy. }
  rewrite (Permutation_length Hperm).
  apply Nat.le_trans with (List.length (ids_of found));
    [exact Hn | apply ids_of_length].
Qed.

Definition server_repeating (n : nat) (req : request) : result response :=
  Ok (mkResponse 200
        (Some (JObj [("page", JInt 1);
                     ("results",
                      JArr [JObj [("id", JInt 11)]; JObj [("id", JInt 12)];
                            JObj [("id", JInt 11)]])]))).

Lemma discovery_collects_distinct_ids_witness :
  let found :=
    fetched_results server_repeating (List.length (requests empty_world))
      (discover_requests 2000 2000 2) in
  NoDup [JInt 12; JInt 11] /\
  (forall a b,
     In a [JInt 12; JInt 11] -> In b [JInt 12; JInt 11] ->
     Py.eq a b = true -> a = b) /\
  (forall x, In x [JInt 12; JInt 11] -> In x (ids_of found)) /\
  (forall x, In x (ids_of found) ->
             exists y, In y [JInt 12; JInt 11] /\ Py.eq x y = true) /\
  (Forall plain_id (ids_of found) ->
   forall x, In x [JInt 12; JInt 11] <-> In x (ids_of found)) /\
  (List.length [JInt 12; JInt 11] <= List.length found)%nat.
Proof.
  apply (discovery_collects_distinct_ids server_repeating 2000 2000 2
           empty_world
           (snd (discover_movies server_repeating 2000 2000 2 empty_world))
           [JInt 11; JInt 12] [JInt 12; JInt 11]).
  - reflexivity.
  - apply perm_swap.
Defined.

(** * Further properties of the scraper *)

(** ** Merging the two records *)

Lemma lookup_dict_set_same (k : string) (v : json) (d : list (string * json)) :
  Py.lookup k (dict_set k v d) = Some v.
Proof.
  induction d as [| [k' v'] t IH]; cbn [dict_set Py.lookup].
  - rewrite String.eqb_refl. reflexivity.
  - destruct (String.eqb k k') eqn:Hk; cbn [Py.lookup]; rewrite Hk;
      [reflexivity | exact IH].
Qed.

Lemma lookup_dict_set_other (k k' : string) (v : json)
    (d : list (string * json)) :
  k <> k' -> Py.lookup k' (dict_set k v d) = Py.lookup k' d.
Proof.
  intros Hne. induction d as [| [k0 v0] t IH]; cbn [dict_set Py.lookup].
  - destruct (String.eqb k' k) eqn:Hk; [| reflexivity].
    apply String.eqb_eq in Hk. congruence.
  - destruct (String.eqb k k0) eqn:Hk0; cbn [Py.lookup].
    + apply String.eqb_eq in Hk0. subst k0.
      destruct (String.eqb k' k) eqn:Hk; [| reflexivity].
      apply String.eqb_eq in Hk. congruence.
    + rewrite IH. reflexivity.
Qed.

Lemma keys_dict_set (k : string) (v : json) (d : list (string * json)) :
  map fst (dict_set k v d)
  = if existsb (String.eqb k) (map fst d) then map fst d else map fst d ++ [k].
Proof.
  induction d as [| [k' v'] t IH]; cbn [dict_set map fst existsb app];
    [reflexivity |].
  destruct (String.eqb k k') eqn:Hk; cbn [orb map fst]; [reflexivity |].
  rewrite IH. destruct (existsb (String.eqb k) (map fst t)); reflexivity.
Qed.

Lemma lookup_update (db : list (string * json)) :
  NoDup (map fst db) ->
  forall (da : list (string * json)) (k : string),
    Py.lookup k (fold_left (fun d kv => dict_set (fst kv) (snd kv) d) db da)
    = match Py.lookup k db with
      | Some v => Some v
      | None => Py.lookup k da
      end.
Proof.
  induction db as [| [k0 v0] t IH]; intros Hnd da k; [reflexivity |].
  cbn [map fst] in Hnd. inversion Hnd as [| ? ? Hnotin Hnd']; subst.
  cbn [fold_left fst snd Py.lookup]. rewrite (IH Hnd').
  destruct (String.eqb k k0) eqn:Hk.
  - apply String.eqb_eq in Hk. subst k0.
    rewrite (lookup_absent k t Hnotin). apply lookup_dict_set_same.
  - destruct (Py.lookup k t); [reflexivity |].
    apply lookup_dict_set_other. intros <-. rewrite String.eqb_refl in Hk.
    discriminate Hk.
Qed.

Lemma keys_update_NoDup (db : list (string * json)) :
  forall da : list (string * json),
    NoDup (map fst da) ->
    NoDup (map fst (fold_left (fun d kv => dict_set (fst kv) (snd kv) d) db da)).
Proof.
  induction db as [| [k0 v0] t IH]; intros da Hnd; [exact Hnd |].
  cbn [fold_left fst snd]. apply IH. rewrite keys_dict_set.
  destruct (existsb (String.eqb k0) (map fst da)) eqn:Hex; [exact Hnd |].
  apply NoDup_app; [exact Hnd | constructor; [intros [] | constructor] |].
  intros x Hx [Heq | []]. subst x.
  assert (Hc : existsb (String.eqb k0) (map fst da) = true).
  { apply existsb_exists. exists k0. split; [exact Hx | apply String.eqb_refl]. }
  congruence.
Qed.

(** X1. [{**a, **b}] on two dicts never fails; reading a key from the result
    gives the value of [b] when [b] has the key and the value of [a]
    otherwise, and the keys of the result are distinct when those of [a]
    are. *)
Theorem merge_prefers_second (da db : list (string * json)) :
  NoDup (map fst db) ->
  exists dm,
    dict_merge (JObj da) (JObj db) = Ok (JObj dm) /\
    (forall k,
       Py.lookup k dm
       = match Py.lookup k db with
         | Some v => Some v
         | None => Py.lookup k da
         end) /\
    (NoDup (map fst da) -> NoDup (map fst dm)).
Proof.
  intros Hnd. eexists. split; [reflexivity |]. split.
  - intros k. apply lookup_update. exact Hnd.
  - apply keys_update_NoDup.
Qed.

Lemma merge_prefers_second_witness :
  exists dm,
    dict_merge (JObj [("title", JStr "Test Film"); ("runtime", JInt 90)])
      (JObj [("runtime", JInt 95); ("awards_text", JStr "N/A")])
    = Ok (JObj dm) /\
    (forall k,
       Py.lookup k dm
       = match Py.lookup k [("runtime", JInt 95); ("awards_text", JStr "N/A")] with
         | Some v => Some v
         | None => Py.lookup k [("title", JStr "Test Film"); ("runtime", JInt 90)]
         end) /\
    (NoDup (map fst [("title", JStr "Test Film"); ("runtime", JInt 90)]) ->
     NoDup (map fst dm)).
Proof.
  apply (merge_prefers_second
           [("title", JStr "Test Film"); ("runtime", JInt 90)]
           [("runtime", JInt 95); ("awards_text", JStr "N/A")]).
  repeat constructor; cbn; intuition discriminate.
Defined.

Lemma omdb_record_shape (py_float : json -> result json) (data rec : json) :
  omdb_record py_float data = Ok rec ->
  exists fields, rec = JObj fields /\ map fst fields = enrichment_fields.
Proof.
  intros H. unfold omdb_record in H. inv_result H. injection H as <-.
  eexists. split; reflexivity.
Qed.

Lemma get_omdb_record_shape (server : nat -> request -> result response)
    (py_float : json -> result json) (imdb_id rec : json) (w : world) :
  fst (get_omdb_record server py_float imdb_id w) = Ok rec ->
  rec = JObj [] \/ exists data, omdb_record py_float data = Ok rec.
Proof.
  unfold get_omdb_record, bind, http_get, lift, ret.
  destruct (Py.truthy imdb_id); cbn [negb fst];
    [| intros H; injection H as <-; left; reflexivity].
  destruct (server (List.length (requests w)) (OmdbGet imdb_id)) as [r | e];
    [| intros H; discriminate H].
  destruct (status_code r =? 200); cbn [negb fst];
    [| intros H; injection H as <-; left; reflexivity].
  destruct (response_json r) as [data | e]; [| intros H; discriminate H].
  destruct (Py.get data "Response" JNull) as [resp | e];
    [| intros H; discriminate H].
  destruct (Py.eq_str resp "True"); cbn [negb fst].
  - intros H. right. exists data. exact H.
  - intros H. injection H as <-. left. reflexivity.
Qed.

Lemma dict_set_fresh (k : string) (v : json) (d : list (string * json)) :
  ~ In k (map fst d) -> dict_set k v d = d ++ [(k, v)].
Proof.
  induction d as [| [k' v'] t IH]; cbn [dict_set map fst app]; intros Hn;
    [reflexivity |].
  destruct (String.eqb k k') eqn:Hk.
  - apply String.eqb_eq in Hk. subst k'. contradiction Hn. left. reflexivity.
  - rewrite IH; [reflexivity |]. intros Hin. apply Hn. right. exact Hin.
Qed.

Lemma update_disjoint (db : list (string * json)) :
  NoDup (map fst db) ->
  forall da : list (string * json),
    (forall k, In k (map fst db) -> ~ In k (map fst da)) ->
    fold_left (fun d kv => dict_set (fst kv) (snd kv) d) db da = da ++ db.
Proof.
  induction db as [| [k v] t IH]; intros Hnd da Hdis;
    [symmetry; apply app_nil_r |].
  cbn [map fst] in Hnd. inversion Hnd as [| ? ? Hnotin Hnd']; subst.
  cbn [fold_left fst snd].
  rewrite dict_set_fresh by (apply Hdis; left; reflexivity).
  rewrite IH; [rewrite <- app_assoc; reflexivity | exact Hnd' |].
  intros k' Hk' Hin. rewrite map_app in Hin. apply in_app_or in Hin.
  destruct Hin as [Hin | [<- | []]].
  - apply (Hdis k'); [right; exact Hk' | exact Hin].
  - apply Hnotin. exact Hk'.
Qed.

Lemma enrichment_fields_NoDup : NoDup enrichment_fields.
Proof.
  unfold enrichment_fields. repeat constructor; cbn; intuition discriminate.
Qed.

Lemma fields_disjoint (k : string) :
  In k enrichment_fields -> ~ In k primary_fields.
Proof.
  unfold enrichment_fields, primary_fields. cbn [In]. intros Hin Hp.
  repeat (destruct Hin as [<- | Hin]; [intuition discriminate |]).
  exact Hin.
Qed.

(** X2. A record that the body of the loop builds is the primary record,
    with its thirteen fields in the order of the dict literal, followed
    either by nothing or by the seven enrichment fields in their order. *)
Theorem merged_record_fields
    (server : nat -> request -> result response)
    (py_float : json -> result json)
    (movie_id rec : json) (w w' : world) :
  merged_record server py_float movie_id w = (Ok rec, w') ->
  exists primary extra,
    fst (get_tmdb_record server movie_id w) = Ok (JObj primary) /\
    map fst primary = primary_fields /\
    rec = JObj (primary ++ extra) /\
    (extra = [] \/ map fst extra = enrichment_fields).
Proof.
  intros H. unfold merged_record in H.
  apply bind_ok in H. destruct H as (tmdb_data & w1 & Ht & H).
  apply bind_ok in H. destruct H as (imdb_id & w2 & Hi & H).
  apply lift_ok in Hi. destruct Hi as (_ & ->).
  apply bind_ok in H. destruct H as (omdb_data & w3 & Ho & H).
  apply lift_ok in H. destruct H as (Hm & _).
  destruct (get_tmdb_record_spec server movie_id w)
    as (res & w0 & Hg & _ & _ & _ & Hp).
  rewrite Hg in Ht. injection Ht as -> ->.
  destruct (Hp tmdb_data eq_refl) as (rd & details & credits & _ & _ & Hrec).
  destruct (tmdb_record_shape _ _ _ _ Hrec) as (primary & -> & Hkeys & _).
  exists primary.
  assert (Hfst : fst (get_omdb_record server py_float imdb_id w1) = Ok omdb_data)
    by (rewrite Ho; reflexivity).
  destruct (get_omdb_record_shape _ _ _ _ _ Hfst) as [-> | (data & Hdata)].
  - exists []. cbn in Hm. injection Hm as <-.
    rewrite Hg, app_nil_r. auto.
  - destruct (omdb_record_shape _ _ _ Hdata) as (extra & -> & Hextra).
    exists extra. cbn [dict_merge] in Hm. injection Hm as <-.
    rewrite Hg. split; [reflexivity |]. split; [exact Hkeys |].
    split; [| right; exact Hextra].
    f_equal. apply update_disjoint.
    + rewrite Hextra. exact enrichment_fields_NoDup.
    + intros k Hk. rewrite Hkeys. apply fields_disjoint.
      rewrite <- Hextra. exact Hk.
Qed.

Definition server_full (n : nat) (req : request) : result response :=
  match req with
  | TmdbGet (MovieDetails _) =>
      Ok (mkResponse 200
            (Some (JObj [("title", JStr "Test Film");
                         ("imdb_id", JStr "tt0000001")])))
  | TmdbGet (MovieCredits _) =>
      Ok (mkResponse 200 (Some (JObj [("cast", JArr large_cast)])))
  | TmdbGet (DiscoverMovie _ _) => Raise ConnectionError
  | OmdbGet _ =>
      Ok (mkResponse 200
            (Some (JObj [("Response", JStr "True");
                         ("imdbRating", JStr "N/A");
                         ("imdbVotes", JStr "1,234");
                         ("Rated", JStr "N/A");
                         ("BoxOffice", JStr "$58,000,000");
                         ("Ratings",
                          JArr [rating_entry "Rotten Tomatoes" "75%";
                                rating_entry "Metacritic" "60/100"])])))
  end.

Lemma merged_record_fields_witness :
  exists primary extra,
    fst (get_tmdb_record server_full (JInt 7) empty_world) = Ok (JObj primary) /\
    map fst primary = primary_fields /\
    fst (merged_record server_full no_float (JInt 7) empty_world)
    = Ok (JObj (primary ++ extra)) /\
    (extra = [] \/ map fst extra = enrichment_fields).
Proof.
  destruct (merged_record_fields server_full no_float (JInt 7)
              (match fst (merged_record server_full no_float (JInt 7) empty_world) with
               | Ok r => r
               | Raise _ => JNull
               end)
              empty_world
              (snd (merged_record server_full no_float (JInt 7) empty_world))
              eq_refl)
    as (primary & extra & H1 & H2 & H3 & H4).
  exists primary, extra. rewrite <- H3. repeat split; try assumption.
Defined.

(** The record of the witness run. *)
Example merged_record_full :
  fst (merged_record server_full no_float (JInt 7) empty_world)
  = Ok (JObj
          [("movie_id", JInt 7); ("title", JStr "Test Film");
           ("release_date", JNull); ("budget", JNull);
           ("revenue_worldwide", JNull); ("runtime", JNull);
           ("genres", JArr []); ("imdb_id", JStr "tt0000001");
           ("franchise", JBool false);
           ("cast_popularity_mean",
            JReal (S754_finite false 6943049425529515 (-49)));
           ("cast_popularity_max", JInt 20);
           ("director_popularity", JNull); ("original_language", JNull);
           ("imdb_rating", JNull); ("imdb_votes", JInt 1234);
           ("mpaa_rating", JStr "N/A");
           ("domestic_box_office", JInt 58000000);
           ("rotten_tomatoes_score", JInt 75);
           ("metacritic_score", JInt 60); ("awards_text", JNull)]).
Proof. reflexivity. Qed.

(** ** The requests of one candidate *)

Lemma get_omdb_record_requests (server : nat -> request -> result response)
    (py_float : json -> result json) (imdb_id : json) (w : world) :
  requests (snd (get_omdb_record server py_float imdb_id w))
  = if Py.truthy imdb_id then requests w ++ [OmdbGet imdb_id] else requests w.
Proof.
  unfold get_omdb_record, bind, http_get, lift, ret.
  destruct (Py.truthy imdb_id); cbn [negb]; [| reflexivity].
  destruct (server (List.length (requests w)) (OmdbGet imdb_id)) as [r | e];
    [| reflexivity].
  destruct (status_code r =? 200); cbn [negb]; [| reflexivity].
  destruct (response_json r) as [data | e]; [| reflexivity].
  destruct (Py.get data "Response" JNull) as [resp | e]; [| reflexivity].
  destruct (Py.eq_str resp "True"); reflexivity.
Qed.

(** What [tmdb_get] returns for a response of the server. *)
Definition tmdb_outcome (r : result response) : result json :=
  (rd <- r ;; _ <- raise_for_status rd ;; response_json rd)%result.

Lemma tmdb_get_outcome (server : nat -> request -> result response)
    (e : endpoint) (w : world) :
  tmdb_get server e w
  = (tmdb_outcome (server (List.length (requests w)) (TmdbGet e)),
     mkWorld (requests w ++ [TmdbGet e]) (sink w) (console w)).
Proof.
  unfold tmdb_get, tmdb_outcome, bind, http_get, lift.
  destruct (server (List.length (requests w)) (TmdbGet e)) as [rd | err];
    cbn [rbind]; [| reflexivity].
  destruct (raise_for_status rd) as [[] | err]; reflexivity.
Qed.

(** X3. For one candidate the body of the loop sends the details request,
    then the credits request, then at most one OMDb request, and nothing
    else.  When the details request fails the body raises that exception
    and has sent this request alone; when the credits request fails, or the
    primary record cannot be built, it raises that exception and has sent
    the two TMDB requests and no other; when the primary record is built,
    the OMDb request follows exactly when the record's identifier is
    truthy, and it carries that identifier. *)
Theorem candidate_requests
    (server : nat -> request -> result response)
    (py_float : json -> result json)
    (movie_id : json) (w : world) :
  (forall e : exn,
     tmdb_outcome
       (server (List.length (requests w)) (TmdbGet (MovieDetails movie_id)))
     = Raise e ->
     merged_record server py_float movie_id w
     = (Raise e,
        mkWorld (requests w ++ [TmdbGet (MovieDetails movie_id)])
          (sink w) (console w))) /\
  (forall details : json,
     tmdb_outcome
       (server (List.length (requests w)) (TmdbGet (MovieDetails movie_id)))
     = Ok details ->
     (forall e : exn,
        tmdb_outcome
          (server (S (List.length (requests w)))
             (TmdbGet (MovieCredits movie_id)))
        = Raise e ->
        merged_record server py_float movie_id w
        = (Raise e,
           mkWorld
             (requests w
              ++ [TmdbGet (MovieDetails movie_id);
                  TmdbGet (MovieCredits movie_id)])
             (sink w) (console w))) /\
     (forall credits : json,
        tmdb_outcome
          (server (S (List.length (requests w)))
             (TmdbGet (MovieCredits movie_id)))
        = Ok credits ->
        (forall e : exn,
           tmdb_record movie_id details credits = Raise e ->
           merged_record server py_float movie_id w
           = (Raise e,
              mkWorld
                (requests w
                 ++ [TmdbGet (MovieDetails movie_id);
                     TmdbGet (MovieCredits movie_id)])
                (sink w) (console w))) /\
        (forall primary imdb_id : json,
           tmdb_record movie_id details credits = Ok primary ->
           Py.get primary "imdb_id" JNull = Ok imdb_id ->
           requests (snd (merged_record server py_float movie_id w))
           = requests w
             ++ [TmdbGet (MovieDetails movie_id);
                 TmdbGet (MovieCredits movie_id)]
             ++ (if Py.truthy imdb_id then [OmdbGet imdb_id] else [])))).
Proof.
  assert (Hlen : List.length (requests w ++ [TmdbGet (MovieDetails movie_id)])
                 = S (List.length (requests w))).
  { rewrite length_app. cbn [List.length]. apply Nat.add_1_r. }
  unfold merged_record, get_tmdb_record, bind.
  rewrite tmdb_get_outcome. split.
  - intros e ->. reflexivity.
  - intros details ->. rewrite tmdb_get_outcome.
    cbn [requests sink console]. rewrite Hlen. split.
    + intros e ->. rewrite <- app_assoc. reflexivity.
    + intros credits ->. unfold lift. split.
      * intros e ->. rewrite <- app_assoc. reflexivity.
      * intros primary imdb_id -> ->.
        match goal with
        | |- context [get_omdb_record server py_float imdb_id ?w0] =>
            pose proof (get_omdb_record_requests server py_float imdb_id w0)
              as Hreq;
            destruct (get_omdb_record server py_float imdb_id w0)
              as [[omdb | e] w3]
        end;
          cbn [snd requests] in Hreq |- *; rewrite Hreq;
          destruct (Py.truthy imdb_id); rewrite <- ?app_assoc;
          cbn [app]; rewrite ?app_nil_r; reflexivity.
Qed.

(** The requests of a candidate whose credits cannot be fetched. *)
Example credits_down :
  merged_record
    (fun n req =>
       match req with
       | TmdbGet (MovieCredits _) => Ok (mkResponse 503 None)
       | _ => server_full n req
       end)
    no_float (JInt 7) empty_world
  = (Raise HTTPError,
     mkWorld [TmdbGet (MovieDetails (JInt 7)); TmdbGet (MovieCredits (JInt 7))]
       [] []).
Proof. reflexivity. Qed.

(** ** The director *)

(** A crew entry whose job is not "Director". *)
Definition not_director (c : json) : Prop :=
  exists kvs, c = JObj kvs /\ Py.lookup "job" kvs <> Some (JStr "Director").

Lemma director_loop_skip (c : json) (rest : list json) :
  not_director c -> director_loop (c :: rest) = director_loop rest.
Proof.
  intros (kvs & -> & Hjob). cbn [director_loop]. unfold Py.get at 1.
  destruct (Py.lookup "job" kvs) as [job |]; cbn [rbind].
  - destruct (Py.eq_str job "Director") eqn:Heq; [| reflexivity].
    apply eq_str_true in Heq. subst job. contradiction Hjob. reflexivity.
  - reflexivity.
Qed.

(** X4. The director's popularity is read from the first crew entry whose job
    is "Director", whatever follows it, and is null when that entry has no
    popularity (no 0 is substituted, unlike for the cast) and when no entry
    is a director; the record holds this value. *)
Theorem first_director_popularity :
  (forall (pre post : list json) (kvs : list (string * json)),
     Forall not_director pre ->
     Py.lookup "job" kvs = Some (JStr "Director") ->
     director_loop (pre ++ JObj kvs :: post)
     = Ok match Py.lookup "popularity" kvs with
          | Some v => v
          | None => JNull
          end) /\
  (forall crew : list json,
     Forall not_director crew -> director_loop crew = Ok JNull) /\
  (forall movie_id details credits rec : json,
     tmdb_record movie_id details credits = Ok rec ->
     exists crew_all crew,
       Py.get credits "crew" (JArr []) = Ok crew_all /\
       Py.iter crew_all = Ok crew /\
       Py.getitem rec "director_popularity" = director_loop crew).
Proof.
  split; [| split].
  - intros pre post kvs Hpre Hjob.
    induction Hpre as [| c t Hc Ht IH]; cbn [app].
    + cbn [director_loop]. unfold Py.get. rewrite Hjob. cbn [rbind].
      destruct (Py.lookup "popularity" kvs); reflexivity.
    + rewrite director_loop_skip by exact Hc. exact IH.
  - intros crew Hcrew. induction Hcrew as [| c t Hc Ht IH]; [reflexivity |].
    rewrite director_loop_skip by exact Hc. exact IH.
  - intros movie_id details credits rec H.
    unfold tmdb_record in H. inv_result H. injection H as <-.
    do 2 eexists. split; [eassumption |]. split; [eassumption |].
    symmetry. assumption.
Qed.

(** ** The Metacritic score *)

(** The value stored under "metacritic_score", as a function of the items of
    "Ratings". *)
Definition metacritic_score (ratings : list json) : result json :=
  (scores <- ratings_loop ratings JNull JNull ;;
   score_field (snd scores))%result.

(** A rating entry of a source other than Metacritic (a Rotten Tomatoes entry
    carries a text). *)
Definition not_metacritic (r : json) : Prop :=
  exists kvs src,
    r = JObj kvs /\
    Py.lookup "Source" kvs = Some (JStr src) /\
    src <> "Metacritic" /\
    (src = "Rotten Tomatoes" -> exists v, Py.lookup "Value" kvs = Some (JStr v)).

Lemma ratings_loop_app (l1 l2 : list json) :
  forall rt mc,
    ratings_loop (l1 ++ l2) rt mc
    = (p <- ratings_loop l1 rt mc ;; ratings_loop l2 (fst p) (snd p))%result.
Proof.
  induction l1 as [| r t IH]; intros rt mc; [reflexivity |].
  cbn [app ratings_loop].
  destruct (Py.getitem r "Source") as [source | e]; cbn [rbind]; [| reflexivity].
  destruct (Py.eq_str source "Rotten Tomatoes").
  - destruct (Py.getitem r "Value") as [value | e]; cbn [rbind]; [| reflexivity].
    destruct (Py.str_method (Py.remove_char "%") value); cbn [rbind];
      [apply IH | reflexivity].
  - destruct (Py.eq_str source "Metacritic"); [| apply IH].
    destruct (Py.getitem r "Value") as [value | e]; cbn [rbind]; [| reflexivity].
    destruct (Py.str_method (Py.before_char "/") value); cbn [rbind];
      [apply IH | reflexivity].
Qed.

Lemma ratings_loop_not_metacritic (rs : list json) :
  Forall not_metacritic rs ->
  forall rt mc, exists rt', ratings_loop rs rt mc = Ok (rt', mc).
Proof.
  induction 1 as [| r t (kvs & src & -> & Hsrc & Hne & Hrt) Ht IH];
    intros rt mc.
  - exists rt. reflexivity.
  - cbn [ratings_loop]. unfold Py.getitem. rewrite Hsrc. cbn [rbind].
    destruct (Py.eq_str (JStr src) "Rotten Tomatoes") eqn:Hr.
    + apply eq_str_true in Hr. injection Hr as ->.
      destruct (Hrt eq_refl) as (v & ->). cbn [rbind Py.str_method]. apply IH.
    + destruct (Py.eq_str (JStr src) "Metacritic") eqn:Hm; [| apply IH].
      apply eq_str_true in Hm. injection Hm as ->. contradiction Hne. reflexivity.
Qed.

(** X5. The Metacritic score is read from the last entry named "Metacritic":
    the text before its first "/" is parsed as an integer, so "72/100" gives
    72 and a text whose part before "/" is the digits [ds] gives their
    decimal value; without such an entry the score is null; the record holds
    this value. *)
Theorem metacritic_normalizer :
  metacritic_score [rating_entry "Metacritic" "72/100"] = Ok (JInt 72) /\
  (forall (pre post : list json) (v : string) (rt mc : json),
     ratings_loop pre JNull JNull = Ok (rt, mc) ->
     Forall not_metacritic post ->
     metacritic_score (pre ++ rating_entry "Metacritic" v :: post)
     = score_field (JStr (Py.before_char "/" v))) /\
  (forall (v : string) (ds : list nat),
     Py.before_char "/" v = digit_string ds -> literal ds ->
     score_field (JStr (Py.before_char "/" v)) = Ok (JInt (decimal ds))) /\
  (forall rs : list json,
     Forall not_metacritic rs -> metacritic_score rs = Ok JNull) /\
  (forall (py_float : json -> result json) (data rec : json),
     omdb_record py_float data = Ok rec ->
     exists ratings_all rs,
       Py.get data "Ratings" (JArr []) = Ok ratings_all /\
       Py.iter ratings_all = Ok rs /\
       Py.getitem rec "metacritic_score" = metacritic_score rs).
Proof.
  split; [reflexivity |]. split; [| split; [| split]].
  - intros pre post v rt mc Hpre Hpost. unfold metacritic_score.
    rewrite ratings_loop_app, Hpre. cbn [rbind fst snd].
    change (ratings_loop (rating_entry "Metacritic" v :: post) rt mc)
      with (ratings_loop post rt (JStr (Py.before_char "/" v))).
    destruct (ratings_loop_not_metacritic post Hpost rt
                (JStr (Py.before_char "/" v))) as (rt' & ->).
    reflexivity.
  - intros v ds Hv Hlit. apply score_field_digits; assumption.
  - intros rs Hrs. unfold metacritic_score.
    destruct (ratings_loop_not_metacritic rs Hrs JNull JNull) as (rt' & ->).
    reflexivity.
  - intros py_float data rec H. unfold omdb_record in H. inv_result H.
    injection H as <-. do 2 eexists.
    split; [eassumption |]. split; [eassumption |].
    unfold metacritic_score.
    match goal with
    | E : ratings_loop _ JNull JNull = Ok _ |- _ => rewrite E
    end.
    cbn [rbind]. symmetry. assumption.
Qed.

(** In a rating entry the sentinel is cut at its "/" and rejected by [int]. *)
Example metacritic_sentinel :
  metacritic_score [rating_entry "Metacritic" "N/A"] = Raise ValueError.
Proof. reflexivity. Qed.

(** X6. A later "Rotten Tomatoes" entry overrides every earlier one: the
    score is computed from the text of the last such entry alone. *)
Theorem last_rotten_tomatoes_entry_wins
    (pre post : list json) (v : string) (rt mc : json) :
  ratings_loop pre JNull JNull = Ok (rt, mc) ->
  Forall other_entry post ->
  rotten_tomatoes_score (pre ++ rating_entry "Rotten Tomatoes" v :: post)
  = score_field (JStr (Py.remove_char "%" v)).
Proof.
  intros Hpre Hpost. unfold rotten_tomatoes_score.
  rewrite ratings_loop_app, Hpre. cbn [rbind fst snd].
  change (ratings_loop (rating_entry "Rotten Tomatoes" v :: post) rt mc)
    with (ratings_loop post (JStr (Py.remove_char "%" v)) mc).
  destruct (ratings_loop_others post Hpost (JStr (Py.remove_char "%" v)) mc)
    as (mc' & ->).
  reflexivity.
Qed.

Lemma last_rotten_tomatoes_entry_wins_witness :
  rotten_tomatoes_score
    ([rating_entry "Rotten Tomatoes" "12%"; rating_entry "Metacritic" "60/100"]
     ++ rating_entry "Rotten Tomatoes" "87%"
        :: [rating_entry "Internet Movie Database" "7.1/10"])
  = score_field (JStr (Py.remove_char "%" "87%")).
Proof.
  apply (last_rotten_tomatoes_entry_wins
           [rating_entry "Rotten Tomatoes" "12%";
            rating_entry "Metacritic" "60/100"]
           [rating_entry "Internet Movie Database" "7.1/10"]
           "87%" (JStr "12") (JStr "60")).
  - reflexivity.
  - constructor; [| constructor].
    exists [("Source", JStr "Internet Movie Database");
            ("Value", JStr "7.1/10")], "Internet Movie Database".
    split; [reflexivity |]. split; [reflexivity |].
    split; [discriminate | discriminate].
Defined.

(** ** The vote count *)

(** X7. The vote count removes "," from the text and reads the rest as an
    integer: "1,234,567" gives 1234567, and a text whose remaining
    characters are the digits [ds] gives their decimal value; a missing
    entry, a null one and the sentinel "N/A" give null; the record holds
    this value. *)
Theorem votes_normalizer :
  imdb_votes_field (JObj [("imdbVotes", JStr "1,234,567")])
  = Ok (JInt 1234567) /\
  (forall (kvs : list (string * json)) (s : string) (ds : list nat),
     Py.lookup "imdbVotes" kvs = Some (JStr s) ->
     Py.remove_char "," s = digit_string ds ->
     literal ds ->
     imdb_votes_field (JObj kvs) = Ok (JInt (decimal ds))) /\
  (forall kvs : list (string * json),
     Py.lookup "imdbVotes" kvs = None \/
     Py.lookup "imdbVotes" kvs = Some JNull \/
     Py.lookup "imdbVotes" kvs = Some (JStr "N/A") ->
     imdb_votes_field (JObj kvs) = Ok JNull) /\
  (forall (py_float : json -> result json) (data rec : json),
     omdb_record py_float data = Ok rec ->
     Py.getitem rec "imdb_votes" = imdb_votes_field data).
Proof.
  split; [reflexivity |]. split; [| split].
  - intros kvs s ds Hl Hs Hlit.
    unfold imdb_votes_field, Py.get, Py.getitem. rewrite Hl.
    cbn [rbind]. unfold not_na, Py.eq_str, Py.eq.
    cbn [Py.as_num Py.as_int option_map is_none].
    destruct (String.eqb s "N/A") eqn:Hna.
    + apply String.eqb_eq in Hna. subst s. exfalso.
      apply (digit_string_not_NA ds Hlit). rewrite <- Hs. reflexivity.
    + cbn [orb negb Py.str_method rbind]. rewrite Hs.
      rewrite int_digit_string by exact Hlit. reflexivity.
  - intros kvs H. unfold imdb_votes_field, Py.get.
    destruct H as [-> | [-> | ->]]; reflexivity.
  - intros py_float data rec H. unfold omdb_record in H. inv_result H.
    injection H as <-. symmetry. assumption.
Qed.

(** ** A payload without data *)

(** The entry [k] of a payload carries no value: it is missing, null or the
    sentinel "N/A". *)
Definition no_value (k : string) (kvs : list (string * json)) : Prop :=
  Py.lookup k kvs = None \/
  Py.lookup k kvs = Some JNull \/
  Py.lookup k kvs = Some (JStr "N/A").

(** [d.get(k)] on the entries of a dict. *)
Definition entry_or_null (k : string) (kvs : list (string * json)) : json :=
  match Py.lookup k kvs with
  | Some v => v
  | None => JNull
  end.

Lemma no_value_not_na (k : string) (kvs : list (string * json)) :
  no_value k kvs -> not_na (entry_or_null k kvs) = false.
Proof. unfold entry_or_null. intros [-> | [-> | ->]]; reflexivity. Qed.

(** X8. A payload whose rating, vote count and box office carry no value and
    whose "Ratings" list is missing or empty gives a record and never an
    error, whatever [float] does: the five numeric fields are null, while
    the two text fields are copied as they are, so that a sentinel "N/A"
    under "Rated" or "Awards" is kept. *)
Theorem payload_without_data
    (py_float : json -> result json) (kvs : list (string * json)) :
  no_value "imdbRating" kvs ->
  no_value "imdbVotes" kvs ->
  no_value "BoxOffice" kvs ->
  Py.lookup "Ratings" kvs = None \/ Py.lookup "Ratings" kvs = Some (JArr []) ->
  omdb_record py_float (JObj kvs)
  = Ok (JObj
          [("imdb_rating", JNull);
           ("imdb_votes", JNull);
           ("mpaa_rating", entry_or_null "Rated" kvs);
           ("domestic_box_office", JNull);
           ("rotten_tomatoes_score", JNull);
           ("metacritic_score", JNull);
           ("awards_text", entry_or_null "Awards" kvs)]).
Proof.
  intros Hrating Hvotes Hbox Hratings.
  apply no_value_not_na in Hrating, Hvotes, Hbox. unfold entry_or_null in *.
  unfold omdb_record, imdb_rating_field, imdb_votes_field, box_office_field,
    Py.get.
  assert (Hloop :
            (rs <- match Py.lookup "Ratings" kvs with
                   | Some v => Ok v
                   | None => Ok (JArr [])
                   end ;; Py.iter rs)%result = Ok []).
  { destruct Hratings as [-> | ->]; reflexivity. }
  destruct (match Py.lookup "Ratings" kvs with
            | Some v => Ok v
            | None => Ok (JArr [])
            end) as [ratings_all | e]; cbn [rbind] in Hloop |- *;
    [| discriminate Hloop].
  rewrite Hloop. cbn [rbind ratings_loop fst snd].
  destruct (Py.lookup "imdbRating" kvs); cbn [rbind]; rewrite Hrating;
    destruct (Py.lookup "imdbVotes" kvs); cbn [rbind]; rewrite Hvotes;
    destruct (Py.lookup "Rated" kvs); cbn [rbind];
    destruct (Py.lookup "BoxOffice" kvs); cbn [rbind]; rewrite Hbox;
    cbn [score_field Py.truthy rbind];
    destruct (Py.lookup "Awards" kvs); reflexivity.
Qed.

Lemma payload_without_data_witness :
  omdb_record no_float
    (JObj [("Response", JStr "True"); ("Rated", JStr "N/A");
           ("imdbRating", JStr "N/A"); ("imdbVotes", JStr "N/A");
           ("Awards", JStr "N/A"); ("Ratings", JArr [])])
  = Ok (JObj
          [("imdb_rating", JNull);
           ("imdb_votes", JNull);
           ("mpaa_rating", JStr "N/A");
           ("domestic_box_office", JNull);
           ("rotten_tomatoes_score", JNull);
           ("metacritic_score", JNull);
           ("awards_text", JStr "N/A")]).
Proof.
  apply (payload_without_data no_float
           [("Response", JStr "True"); ("Rated", JStr "N/A");
            ("imdbRating", JStr "N/A"); ("imdbVotes", JStr "N/A");
            ("Awards", JStr "N/A"); ("Ratings", JArr [])]).
  - right. right. reflexivity.
  - right. right. reflexivity.
  - left. reflexivity.
  - right. reflexivity.
Defined.

(** ** The trace of discovery *)

(** The (year, page) pairs that [discover_movies] goes through, in order. *)
Definition discover_pages (start_year end_year pages_per_year : Z)
  : list (Z * Z) :=
  flat_map (fun year =>
              map (fun page => (year, page)) (Py.range 1 (pages_per_year + 1)))
    (Py.range start_year (end_year + 1)).

Definition page_request (yp : Z * Z) : request :=
  TmdbGet (DiscoverMovie (fst yp) (snd yp)).

(** The progress line printed for a page. *)
Definition page_line (yp : Z * Z) : event := Discovered (snd yp) (fst yp).

Lemma for_each_app {X S : Type} (l1 l2 : list X) (body : X -> S -> M S) :
  forall (s : S) (w : world),
    for_each (l1 ++ l2) body s w
    = bind (for_each l1 body s) (fun s' => for_each l2 body s') w.
Proof.
  induction l1 as [| x t IH]; intros s w; cbn [app for_each].
  - reflexivity.
  - unfold bind at 1 2 3. destruct (body x s w) as [[s1 | e] w1].
    + rewrite IH. reflexivity.
    + reflexivity.
Qed.

Lemma for_each_map {X Y S : Type} (f : X -> Y) (l : list X)
    (body : Y -> S -> M S) :
  forall (s : S) (w : world),
    for_each (map f l) body s w = for_each l (fun x => body (f x)) s w.
Proof.
  induction l as [| x t IH]; intros s w; cbn [map for_each]; [reflexivity |].
  unfold bind. destruct (body (f x) s w) as [[s1 | e] w1];
    [apply IH | reflexivity].
Qed.

(** The two nested loops are one loop over the pairs. *)
Lemma nested_loops {S : Type} (years pages : list Z) (body : Z -> Z -> S -> M S) :
  forall (s : S) (w : world),
    for_each years (fun year s => for_each pages (fun page s => body year page s) s)
      s w
    = for_each (flat_map (fun year => map (fun page => (year, page)) pages) years)
        (fun yp s => body (fst yp) (snd yp) s) s w.
Proof.
  induction years as [| year t IH]; intros s w; cbn [for_each flat_map];
    [reflexivity |].
  rewrite for_each_app. unfold bind. rewrite for_each_map. cbn [fst snd].
  destruct (for_each pages (fun page s => body year page s) s w)
    as [[s1 | e] w1]; [apply IH | reflexivity].
Qed.

Lemma discover_movies_pages (server : nat -> request -> result response)
    (start_year end_year pages_per_year : Z) (w : world) :
  discover_movies server start_year end_year pages_per_year w
  = for_each (discover_pages start_year end_year pages_per_year)
      (fun yp ids => discover_page server (fst yp) (snd yp) ids) [] w.
Proof.
  unfold discover_movies, discover_pages.
  apply (nested_loops _ _ (fun year page ids => discover_page server year page ids)).
Qed.

(** The outcome of a computation, its value left out. *)
Definition outcome_of {A : Type} (r : result A) : result unit :=
  match r with
  | Ok _ => Ok tt
  | Raise e => Raise e
  end.

(** What a page of discovery does with the response of the server: it
    returns, or raises the exception of the request, of the decoding or of
    a result that has no hashable "id". *)
Definition page_outcome (r : result response) : result unit :=
  (data <- tmdb_outcome r ;;
   results <- Py.get data "results" (JArr []) ;;
   ms <- Py.iter results ;;
   outcome_of (add_results ms []))%result.

(** Every page of the list succeeds, the first being the [n]-th request of
    the run, the second the next one, and so on. *)
Fixpoint pages_succeed (server : nat -> request -> result response)
    (n : nat) (pages : list (Z * Z)) : Prop :=
  match pages with
  | [] => True
  | yp :: t =>
      page_outcome (server n (page_request yp)) = Ok tt /\
      pages_succeed server (S n) t
  end.

(** Whether the results of a page can be added does not depend on the
    identifiers collected before. *)
Lemma add_results_outcome (ms : list json) :
  forall s : pyset,
    outcome_of (add_results ms s) = outcome_of (add_results ms []).
Proof.
  induction ms as [| m t IH]; intros s; cbn [add_results]; [reflexivity |].
  destruct (Py.getitem m "id") as [id | e]; cbn [rbind]; [| reflexivity].
  unfold set_add. destruct (hashable id); cbn [rbind]; [| reflexivity].
  rewrite IH. symmetry. apply IH.
Qed.

Lemma discover_page_outcome (server : nat -> request -> result response)
    (year page : Z) (s : pyset) (w : world) :
  requests (snd (discover_page server year page s w))
  = requests w ++ [TmdbGet (DiscoverMovie year page)] /\
  sink (snd (discover_page server year page s w)) = sink w /\
  console (snd (discover_page server year page s w))
  = console w
    ++ match tmdb_outcome
               (server (List.length (requests w))
                  (TmdbGet (DiscoverMovie year page))) with
       | Ok _ => [Discovered page year]
       | Raise _ => []
       end /\
  outcome_of (fst (discover_page server year page s w))
  = page_outcome
      (server (List.length (requests w)) (TmdbGet (DiscoverMovie year page))).
Proof.
  unfold discover_page, bind, page_outcome. rewrite tmdb_get_outcome.
  destruct (tmdb_outcome
              (server (List.length (requests w))
                 (TmdbGet (DiscoverMovie year page)))) as [data | e];
    cbn [rbind fst snd requests sink console].
  - unfold print, lift. cbn [requests sink console].
    destruct (Py.get data "results" (JArr [])) as [results | e];
      cbn [rbind fst snd requests sink console];
      [| repeat split; reflexivity].
    destruct (Py.iter results) as [ms | e];
      cbn [rbind fst snd requests sink console];
      [| repeat split; reflexivity].
    split; [reflexivity |]. split; [reflexivity |]. split; [reflexivity |].
    apply add_results_outcome.
  - rewrite app_nil_r. repeat split; reflexivity.
Qed.

(** The loop over the pages: it returns when every page succeeds, having
    sent all the requests; otherwise it raises the exception of the first
    page that fails, having sent the requests up to that one. *)
Lemma discover_loop_outcomes (server : nat -> request -> result response)
    (pages : list (Z * Z)) :
  forall (s : pyset) (w : world),
    match for_each pages
            (fun yp ids => discover_page server (fst yp) (snd yp) ids) s w with
    | (Ok _, w') =>
        pages_succeed server (List.length (requests w)) pages /\
        requests w' = requests w ++ map page_request pages /\
        sink w' = sink w /\
        console w' = console w ++ map page_line pages
    | (Raise e, w') =>
        exists before last after,
          pages = before ++ last :: after /\
          pages_succeed server (List.length (requests w)) before /\
          page_outcome
            (server (List.length (requests w) + List.length before)%nat
               (page_request last))
          = Raise e /\
          requests w' = requests w ++ map page_request (before ++ [last]) /\
          sink w' = sink w /\
          console w'
          = console w ++ map page_line before
            ++ match tmdb_outcome
                       (server (List.length (requests w) + List.length before)%nat
                          (page_request last)) with
               | Ok _ => [page_line last]
               | Raise _ => []
               end
    end.
Proof.
  induction pages as [| yp t IH]; intros s w.
  - cbn [for_each ret map pages_succeed]. rewrite !app_nil_r.
    repeat split; reflexivity.
  - cbn [for_each]. unfold bind.
    destruct (discover_page_outcome server (fst yp) (snd yp) s w)
      as (Hr & Hs & Hc & Ho).
    fold (page_request yp) in Hr, Hc, Ho.
    destruct (discover_page server (fst yp) (snd yp) s w) as [[s1 | e] w1];
      cbn [fst snd outcome_of] in *.
    + assert (Hlen : List.length (requests w1) = S (List.length (requests w))).
      { rewrite Hr, length_app. cbn [List.length]. apply Nat.add_1_r. }
      assert (Hline : console w1 = console w ++ [page_line yp]).
      { rewrite Hc. unfold page_outcome in Ho.
        destruct (tmdb_outcome
                    (server (List.length (requests w)) (page_request yp)));
          [reflexivity | discriminate Ho]. }
      specialize (IH s1 w1). rewrite Hlen in IH.
      destruct (for_each t _ s1 w1) as [[s' | e] w'].
      * destruct IH as (Hok & Hr' & Hs' & Hc').
        cbn [pages_succeed map].
        split; [split; [symmetry; exact Ho | exact Hok] |].
        split; [rewrite Hr', Hr, <- app_assoc; reflexivity |].
        split; [rewrite Hs', Hs; reflexivity |].
        rewrite Hc', Hline, <- app_assoc. reflexivity.
      * destruct IH as (before & last & after & -> & Hok & Hfail & Hr' & Hs'
                        & Hc').
        exists (yp :: before), last, after.
        cbn [pages_succeed map app List.length].
        rewrite Nat.add_succ_r. cbn [Nat.add] in Hfail, Hc'.
        split; [reflexivity |].
        split; [split; [symmetry; exact Ho | exact Hok] |].
        split; [exact Hfail |].
        split; [rewrite Hr', Hr, <- app_assoc; reflexivity |].
        split; [rewrite Hs', Hs; reflexivity |].
        rewrite Hc', Hline, <- !app_assoc. reflexivity.
    + exists [], yp, t. cbn [pages_succeed map app List.length].
      rewrite Nat.add_0_r.
      split; [reflexivity |]. split; [exact I |].
      split; [symmetry; exact Ho |].
      split; [exact Hr |]. split; [exact Hs | exact Hc].
Qed.

Lemma range_length (a b : Z) : List.length (Py.range a b) = Z.to_nat (b - a).
Proof. unfold Py.range. rewrite length_map, length_seq. reflexivity. Qed.

Lemma discover_pages_length (start_year end_year pages_per_year : Z) :
  List.length (discover_pages start_year end_year pages_per_year)
  = (Z.to_nat (end_year + 1 - start_year) * Z.to_nat pages_per_year)%nat.
Proof.
  unfold discover_pages. rewrite <- (range_length start_year (end_year + 1)).
  replace (Z.to_nat pages_per_year)
    with (List.length (Py.range 1 (pages_per_year + 1)))
    by (rewrite range_length; f_equal; lia).
  induction (Py.range start_year (end_year + 1)) as [| year t IH];
    cbn [flat_map List.length]; [reflexivity |].
  rewrite length_app, length_map, IH. reflexivity.
Qed.

(** X9. Discovery goes through the years in order and, within a year, through
    pages 1 to [pages_per_year], one request per page, years times pages in
    all, and never writes to the output file.  It returns exactly when
    every page succeeds; it has then sent every request and printed one
    line per page.  Otherwise it stops at the first page that fails and
    raises its exception: the pages before it succeeded, the request of the
    failing page is the last one sent, and the lines printed are those of
    the pages before, and that of the failing page when its request
    returned a payload. *)
Theorem discovery_trace (server : nat -> request -> result response)
    (start_year end_year pages_per_year : Z) (w : world) :
  List.length (discover_pages start_year end_year pages_per_year)
  = (Z.to_nat (end_year + 1 - start_year) * Z.to_nat pages_per_year)%nat /\
  (forall (ids : pyset) (w' : world),
     discover_movies server start_year end_year pages_per_year w = (Ok ids, w') ->
     pages_succeed server (List.length (requests w))
       (discover_pages start_year end_year pages_per_year) /\
     requests w'
     = requests w
       ++ map page_request (discover_pages start_year end_year pages_per_year) /\
     sink w' = sink w /\
     console w'
     = console w
       ++ map page_line (discover_pages start_year end_year pages_per_year)) /\
  (forall (e : exn) (w' : world),
     discover_movies server start_year end_year pages_per_year w = (Raise e, w') ->
     exists before last after,
       discover_pages start_year end_year pages_per_year
       = before ++ last :: after /\
       pages_succeed server (List.length (requests w)) before /\
       page_outcome
         (server (List.length (requests w) + List.length before)%nat
            (page_request last))
       = Raise e /\
       requests w' = requests w ++ map page_request (before ++ [last]) /\
       sink w' = sink w /\
       console w'
       = console w ++ map page_line before
         ++ match tmdb_outcome
                    (server (List.length (requests w) + List.length before)%nat
                       (page_request last)) with
            | Ok _ => [page_line last]
            | Raise _ => []
            end).
Proof.
  split; [apply discover_pages_length |].
  pose proof (discover_loop_outcomes server
                (discover_pages start_year end_year pages_per_year) [] w) as H.
  rewrite <- discover_movies_pages in H.
  split.
  - intros ids w' Heq. rewrite Heq in H. exact H.
  - intros e w' Heq. rewrite Heq in H. exact H.
Qed.

Definition server_third_page_down (n : nat) (req : request)
  : result response :=
  match n with
  | 2%nat => Raise ConnectionError
  | _ => Ok (mkResponse 200 (Some (JObj [("results", JArr [])])))
  end.

(** A run of two years with two pages each, whose third request fails. *)
Example discovery_stops_at_failure :
  discover_movies server_third_page_down 2000 2001 2 empty_world
  = (Raise ConnectionError,
     mkWorld
       [TmdbGet (DiscoverMovie 2000 1); TmdbGet (DiscoverMovie 2000 2);
        TmdbGet (DiscoverMovie 2001 1)]
       []
       [Discovered 1 2000; Discovered 2 2000]).
Proof. reflexivity. Qed.

(** A page with a result that has no "id": the line of the page is printed,
    then the whole discovery fails. *)
Example discovery_malformed_result :
  discover_movies
    (fun n req =>
       Ok (mkResponse 200
             (Some (JObj [("results",
                           JArr [JObj [("id", JInt 1)];
                                 JObj [("title", JStr "No id")]])]))))
    2000 2000 2 empty_world
  = (Raise KeyError,
     mkWorld [TmdbGet (DiscoverMovie 2000 1)] [] [Discovered 1 2000]).
Proof. reflexivity. Qed.

(** ** The whole run *)

(** X10. Discovery is outside the [try]: when it raises, [scrape] ends with
    the same exception and in the same state, before any candidate is
    looked at: only discover requests have been sent, nothing is written
    and only progress lines are printed.  When discovery returns, [scrape]
    always returns (the output file being one that opens and takes every
    write, as [write_line] has it): the records written are those of the
    candidates whose body returned, in the order in which the set was
    listed, so at most one per candidate; one line is printed per candidate
    after the progress lines, and the last line is the completion
    message. *)
Theorem scrape_run (server : nat -> request -> result response)
    (py_float : json -> result json) (list_of_set : pyset -> list json)
    (start_year end_year pages_per_year : Z) (w : world) :
  (forall (e : exn) (w1 : world),
     discover_movies server start_year end_year pages_per_year w = (Raise e, w1) ->
     scrape server py_float list_of_set start_year end_year pages_per_year w
     = (Raise e, w1) /\
     sink w1 = sink w /\
     exists sent printed : list (Z * Z),
       requests w1 = requests w ++ map page_request sent /\
       console w1 = console w ++ map page_line printed) /\
  (forall (ids : pyset) (w1 : world),
     discover_movies server start_year end_year pages_per_year w = (Ok ids, w1) ->
     exists w' : world,
       scrape server py_float list_of_set start_year end_year pages_per_year w
       = (Ok tt, w') /\
       sink w'
       = sink w
         ++ flat_map written
              (outcomes server py_float 1 (list_of_set ids) w1) /\
       (List.length (sink w')
        <= List.length (sink w) + List.length (list_of_set ids))%nat /\
       console w'
       = console w
         ++ map page_line (discover_pages start_year end_year pages_per_year)
         ++ reports 1 (list_of_set ids)
              (outcomes server py_float 1 (list_of_set ids) w1)
         ++ [Complete]).
Proof.
  pose proof (discover_loop_outcomes server
                (discover_pages start_year end_year pages_per_year) [] w) as H.
  rewrite <- discover_movies_pages in H.
  unfold scrape, bind. split.
  - intros e w1 Heq. rewrite Heq in H |- *.
    destruct H as (before & last & after & _ & _ & _ & Hr & Hs & Hc).
    split; [reflexivity |]. split; [exact Hs |].
    exists (before ++ [last]).
    destruct (tmdb_outcome
                (server (List.length (requests w) + List.length before)%nat
                   (page_request last))).
    + exists (before ++ [last]). split; [exact Hr |].
      rewrite Hc, map_app. reflexivity.
    + exists before. split; [exact Hr |]. rewrite Hc, app_nil_r. reflexivity.
  - intros ids w1 Heq. rewrite Heq in H |- *.
    destruct H as (_ & _ & Hs & Hc).
    destruct (scrape_loop_spec server py_float (list_of_set ids) 1%nat w1)
      as (w2 & -> & Hs2 & Hc2).
    unfold print.
    exists (mkWorld (requests w2) (sink w2) (console w2 ++ [Complete])).
    pose proof (outcomes_length server py_float (list_of_set ids) 1%nat w1)
      as Hlen.
    pose proof (written_length (outcomes server py_float 1 (list_of_set ids) w1))
      as Hw.
    cbn [sink console].
    split; [reflexivity |].
    split; [rewrite Hs2, Hs; reflexivity |].
    split; [rewrite Hs2, Hs, length_app; lia |].
    rewrite Hc2, Hc, <- !app_assoc. reflexivity.
Qed.

(** A server with one page of two results; the second film has no details. *)
Definition server_two_films (n : nat) (req : request) : result response :=
  match req with
  | TmdbGet (DiscoverMovie _ _) =>
      Ok (mkResponse 200
            (Some (JObj [("results",
                          JArr [JObj [("id", JInt 1)]; JObj [("id", JInt 2)]])])))
  | TmdbGet (MovieDetails (JInt 2)) => Ok (mkResponse 404 None)
  | _ => server_full n req
  end.

(** A complete run: the lines printed and the number of records written. *)
Example scrape_two_films :
  let w := snd (scrape server_two_films no_float (fun s => s) 2000 2000 1
                  empty_world) in
  console w
  = [Discovered 1 2000; Scraped 1; Failed (JInt 2) HTTPError; Complete] /\
  List.length (sink w) = 1%nat /\
  requests w
  = [TmdbGet (DiscoverMovie 2000 1);
     TmdbGet (MovieDetails (JInt 1)); TmdbGet (MovieCredits (JInt 1));
     OmdbGet (JStr "tt0000001");
     TmdbGet (MovieDetails (JInt 2))].
Proof. repeat split; reflexivity. Qed.

(** ** The cast that is kept *)

Lemma In_firstn {A : Type} (n : nat) (l : list A) (x : A) :
  In x (firstn n l) -> In x l.
Proof.
  intros H. rewrite <- (firstn_skipn n l). apply in_or_app. left. exact H.
Qed.

(** X11. Whatever the credits payload holds, the cast that is kept has the
    size of the cast list cut at three, each kept entry is an entry of the
    cast list, and the list of popularities has one item per kept entry. *)
Theorem top_cast_at_most_three (credits : json) (cast : list json) :
  top_cast credits = Ok cast ->
  exists cast_all items,
    Py.get credits "cast" (JArr []) = Ok cast_all /\
    Py.iter cast_all = Ok items /\
    List.length cast = Nat.min 3 (List.length items) /\
    (forall c, In c cast -> In c items) /\
    (forall pops, cast_popularities cast = Ok pops ->
                  List.length pops = List.length cast).
Proof.
  intros H. unfold top_cast in H. inv_result H. injection H as <-.
  match goal with
  | Eg : Py.get credits "cast" _ = Ok ?cast_all,
    Ei : Py.iter ?cast_all = Ok ?items,
    Es : sorted_by order_key ?items = Ok ?s |- _ =>
      exists cast_all, items;
      pose proof (sorted_by_perm order_key items s Es) as Hperm;
      split; [exact Eg |]; split; [exact Ei |]
  end.
  split; [| split].
  - match type of Hperm with
    | Permutation ?items ?s =>
        change (List.length (firstn 3 s) = Nat.min 3 (List.length items))
    end.
    rewrite length_firstn. rewrite (Permutation_length Hperm). reflexivity.
  - intros c Hc.
    match type of Hperm with
    | Permutation _ ?s => change (In c (firstn 3 s)) in Hc
    end.
    apply In_firstn in Hc.
    apply (Permutation_in c (Permutation_sym Hperm)). exact Hc.
  - intros pops Hpops. unfold cast_popularities in Hpops.
    apply (rmap_length _ _ _ Hpops).
Qed.

Lemma top_cast_at_most_three_witness :
  exists cast_all items,
    Py.get (JObj [("cast", JArr large_cast)]) "cast" (JArr []) = Ok cast_all /\
    Py.iter cast_all = Ok items /\
    List.length
      [cast_entry (Some 0) (Some 20); cast_entry (Some 1) (Some 10);
       cast_entry None (Some 7)]
    = Nat.min 3 (List.length items) /\
    (forall c,
       In c [cast_entry (Some 0) (Some 20); cast_entry (Some 1) (Some 10);
             cast_entry None (Some 7)] ->
       In c items) /\
    (forall pops,
       cast_popularities
         [cast_entry (Some 0) (Some 20); cast_entry (Some 1) (Some 10);
          cast_entry None (Some 7)]
       = Ok pops ->
       List.length pops
       = List.length
           [cast_entry (Some 0) (Some 20); cast_entry (Some 1) (Some 10);
            cast_entry None (Some 7)]).
Proof.
  apply (top_cast_at_most_three (JObj [("cast", JArr large_cast)])
           [cast_entry (Some 0) (Some 20); cast_entry (Some 1) (Some 10);
            cast_entry None (Some 7)]).
  reflexivity.
Defined.

(** ** The genres *)

Lemma rmap_Forall2 {A B : Type} (f : A -> result B) (l : list A) :
  forall r : list B, rmap f l = Ok r -> Forall2 (fun x y => f x = Ok y) l r.
Proof.
  induction l as [| x t IH]; intros r H; cbn [rmap] in H.
  - injection H as <-. constructor.
  - inv_result H. injection H as <-. constructor; [assumption |].
    apply IH. assumption.
Qed.

Lemma Forall2_In_l {A B : Type} (P : A -> B -> Prop) (l : list A) (r : list B)
    (x : A) :
  Forall2 P l r -> In x l -> exists y, P x y.
Proof.
  induction 1 as [| a b l' r' Hab Hrest IH]; intros Hin; [contradiction Hin |].
  destruct Hin as [<- | Hin]; [exists b; exact Hab | apply IH; exact Hin].
Qed.

(** X12. The genres of a record are the names of the genre entries of the
    details, one per entry and in their order; the name is read with
    [g["name"]], so a single entry without a name leaves the candidate
    without a record. *)
Theorem genres_are_names (movie_id details credits : json) :
  (forall rec : json,
     tmdb_record movie_id details credits = Ok rec ->
     exists genres_all gs names,
       Py.get details "genres" (JArr []) = Ok genres_all /\
       Py.iter genres_all = Ok gs /\
       Py.getitem rec "genres" = Ok (JArr names) /\
       Forall2 (fun g name => Py.getitem g "name" = Ok name) gs names) /\
  (forall (genres_all : json) (gs : list json) (g : json) (e : exn),
     Py.get details "genres" (JArr []) = Ok genres_all ->
     Py.iter genres_all = Ok gs ->
     In g gs ->
     Py.getitem g "name" = Raise e ->
     exists e', tmdb_record movie_id details credits = Raise e').
Proof.
  assert (Hfirst :
            forall rec : json,
              tmdb_record movie_id details credits = Ok rec ->
              exists genres_all gs names,
                Py.get details "genres" (JArr []) = Ok genres_all /\
                Py.iter genres_all = Ok gs /\
                Py.getitem rec "genres" = Ok (JArr names) /\
                Forall2 (fun g name => Py.getitem g "name" = Ok name) gs names).
  { intros rec H. unfold tmdb_record in H. inv_result H. injection H as <-.
    match goal with
    | Eg : Py.get details "genres" _ = Ok ?genres_all,
      Ei : Py.iter ?genres_all = Ok ?gs,
      Em : rmap _ ?gs = Ok ?names |- _ =>
        exists genres_all, gs, names;
        split; [exact Eg |]; split; [exact Ei |]; split; [reflexivity |];
        exact (rmap_Forall2 _ gs names Em)
    end. }
  split; [exact Hfirst |].
  intros genres_all gs g e Hget Hiter Hin Hname.
  destruct (tmdb_record movie_id details credits) as [rec | e'] eqn:Hrec;
    [| exists e'; reflexivity].
  exfalso.
  destruct (Hfirst rec eq_refl) as (ga & gs' & names & Hget' & Hiter' & _ & Hall).
  rewrite Hget in Hget'. injection Hget' as <-.
  rewrite Hiter in Hiter'. injection Hiter' as <-.
  destruct (Forall2_In_l _ gs names g Hall Hin) as (name & Hok).
  rewrite Hname in Hok. discriminate Hok.
Qed.

(** A details payload with an unnamed genre. *)
Example unnamed_genre :
  tmdb_record (JInt 7)
    (JObj [("title", JStr "Test Film");
           ("genres", JArr [JObj [("id", JInt 18); ("name", JStr "Drama")];
                            JObj [("id", JInt 35)]])])
    (JObj [])
  = Raise KeyError.
Proof. reflexivity. Qed.

(** ** Explicit nulls in the cast *)

(** Induction on a value and on the items of its lists. *)
Section json_induction.

Variable P : json -> Prop.
Hypothesis Hnull : P JNull.
Hypothesis Hbool : forall b, P (JBool b).
Hypothesis Hint : forall z, P (JInt z).
Hypothesis Hreal : forall f, P (JReal f).
Hypothesis Hstr : forall s, P (JStr s).
Hypothesis Harr : forall l, Forall P l -> P (JArr l).
Hypothesis Hobj : forall kvs, P (JObj kvs).

Fixpoint json_items_ind (v : json) : P v :=
  match v with
  | JNull => Hnull
  | JBool b => Hbool b
  | JInt z => Hint z
  | JReal f => Hreal f
  | JStr s => Hstr s
  | JArr l =>
      Harr l
        ((fix items (l : list json) : Forall P l :=
            match l with
            | [] => Forall_nil P
            | x :: t => Forall_cons x (json_items_ind x) (items t)
            end) l)
  | JObj kvs => Hobj kvs
  end.

End json_induction.

Lemma lt_null_l (k : json) : Py.lt JNull k = Raise TypeError.
Proof.
  cbn [Py.lt]. unfold Py.lt_flat. cbn [Py.as_num Py.as_int option_map].
  destruct (Py.as_num k); reflexivity.
Qed.

Lemma lt_null_r (k : json) : Py.lt k JNull = Raise TypeError.
Proof. destruct k; reflexivity. Qed.

Lemma lt_flat_raises (a b : json) (e : exn) :
  Py.lt_flat a b = Raise e -> e = TypeError.
Proof.
  unfold Py.lt_flat. destruct (Py.as_num a); destruct (Py.as_num b);
    try (intros H; congruence); destruct a; destruct b; intros H; congruence.
Qed.

(** [<] raises nothing but [TypeError], also between lists. *)
Lemma lt_raises (a : json) :
  forall (b : json) (e : exn), Py.lt a b = Raise e -> e = TypeError.
Proof.
  induction a as [| b0 | z | f | s | l Hl | kvs] using json_items_ind;
    intros b e; try (apply lt_flat_raises).
  destruct b as [| b0 | z | f | s | m | kvs];
    try (apply (lt_flat_raises (JArr l))).
  cbn [Py.lt]. revert m.
  induction Hl as [| x t Hx Ht IH]; intros [| y m']; try discriminate.
  destruct (Py.equal x y); [apply IH | apply Hx].
Qed.

Lemma insert_by_key_raises (k x : json) (l : list (json * json)) (e : exn) :
  insert_by_key k x l = Raise e -> e = TypeError.
Proof.
  induction l as [| [k' y] t IH]; cbn [insert_by_key]; [discriminate |].
  destruct (Py.lt k' k) as [[|] | e'] eqn:Hlt; cbn [rbind].
  - destruct (insert_by_key k x t) as [r | e'']; cbn [rbind]; [discriminate |].
    intros H. injection H as <-. apply IH. reflexivity.
  - discriminate.
  - intros H. injection H as <-. apply (lt_raises _ _ _ Hlt).
Qed.

Lemma sort_pairs_raises (l : list (json * json)) (e : exn) :
  sort_pairs l = Raise e -> e = TypeError.
Proof.
  revert e. induction l as [| [k x] t IH]; intros e; cbn [sort_pairs];
    [discriminate |].
  destruct (sort_pairs t) as [s | e'] eqn:Hs; cbn [rbind].
  - apply insert_by_key_raises.
  - intros H. injection H as <-. apply IH. reflexivity.
Qed.

(** Sorting two or more pairs compares every key with another one. *)
Lemma sort_pairs_null (l : list (json * json)) :
  (2 <= List.length l)%nat ->
  Exists (fun kx => fst kx = JNull) l ->
  sort_pairs l = Raise TypeError.
Proof.
  induction l as [| [k x] t IH]; intros Hlen Hex; cbn [List.length] in Hlen;
    [lia |].
  cbn [sort_pairs].
  destruct (sort_pairs t) as [s | e] eqn:Hs; cbn [rbind].
  - pose proof (sort_pairs_perm t s Hs) as Hperm.
    destruct s as [| [k' y] s'].
    { apply Permutation_length in Hperm. cbn [List.length] in Hperm. lia. }
    cbn [insert_by_key].
    inversion Hex as [? ? Hk | ? ? Ht]; subst.
    + cbn [fst] in Hk. subst k. rewrite lt_null_r. reflexivity.
    + destruct t as [| [k1 x1] [| p t']].
      * inversion Ht.
      * cbn [sort_pairs rbind insert_by_key] in Hs. injection Hs as <- <- <-.
        inversion Ht as [? ? Hk | ? ? Hnil]; subst; [| inversion Hnil].
        cbn [fst] in Hk. subst k1. rewrite lt_null_l. reflexivity.
      * assert (Hc : (2 <= List.length ((k1, x1) :: p :: t'))%nat)
          by (cbn [List.length]; lia).
        pose proof (IH Hc Ht) as Hr. congruence.
  - f_equal. apply (sort_pairs_raises t e Hs).
Qed.

(** A cast entry whose billing order is an explicit null. *)
Definition null_order (c : json) : Prop :=
  exists kvs, c = JObj kvs /\ Py.lookup "order" kvs = Some JNull.

(** The sort key of an entry, null when it cannot be computed. *)
Definition order_value (c : json) : json :=
  match order_key c with
  | Ok k => k
  | Raise _ => JNull
  end.

Lemma rmap_order_key_objects (items : list json) :
  Forall is_object items ->
  rmap (fun x => k <- order_key x ;; Ok (k, x))%result items
  = Ok (map (fun x => (order_value x, x)) items).
Proof.
  induction 1 as [| c t (kvs & ->) Ht IH]; [reflexivity |].
  cbn [rmap map]. rewrite IH. unfold order_value, order_key, Py.get.
  destruct (Py.lookup "order" kvs); reflexivity.
Qed.

(** X13. An explicit null under "order" is not replaced by 99: when the cast
    list has two or more entries, all of them objects, and one of them has
    a null order, sorting raises TypeError and the candidate gets no
    record. *)
Theorem null_order_rejected (movie_id details : json)
    (ckvs : list (string * json)) (items : list json) :
  Py.lookup "cast" ckvs = Some (JArr items) ->
  Forall is_object items ->
  (2 <= List.length items)%nat ->
  Exists null_order items ->
  tmdb_record movie_id details (JObj ckvs) = Raise TypeError.
Proof.
  intros Hcast Hobj Hlen Hnull.
  unfold tmdb_record, top_cast, Py.get at 1. rewrite Hcast.
  cbn [rbind Py.iter]. unfold sorted_by.
  rewrite (rmap_order_key_objects items Hobj). cbn [rbind].
  rewrite sort_pairs_null; [reflexivity | rewrite length_map; exact Hlen |].
  apply Exists_exists in Hnull. destruct Hnull as (c & Hin & kvs & -> & Hord).
  apply Exists_exists. exists (order_value (JObj kvs), JObj kvs).
  split.
  - apply (in_map (fun x => (order_value x, x)) items (JObj kvs) Hin).
  - cbn [fst]. unfold order_value, order_key, Py.get. rewrite Hord. reflexivity.
Qed.

Lemma null_order_rejected_witness :
  tmdb_record (JInt 7) (JObj [("title", JStr "Test Film")])
    (JObj [("cast", JArr [cast_entry (Some 1) (Some 10);
                          JObj [("order", JNull); ("popularity", JInt 3)]])])
  = Raise TypeError.
Proof.
  apply (null_order_rejected (JInt 7) (JObj [("title", JStr "Test Film")])
           [("cast", JArr [cast_entry (Some 1) (Some 10);
                           JObj [("order", JNull); ("popularity", JInt 3)]])]
           [cast_entry (Some 1) (Some 10);
            JObj [("order", JNull); ("popularity", JInt 3)]]).
  - reflexivity.
  - constructor; [eexists; reflexivity |].
    constructor; [eexists; reflexivity | constructor].
  - cbn [List.length]. lia.
  - apply Exists_cons_tl. apply Exists_cons_hd.
    exists [("order", JNull); ("popularity", JInt 3)].
    split; reflexivity.
Defined.

(** A single entry is never compared, so its null order goes unnoticed. *)
Example single_null_order :
  top_cast (JObj [("cast", JArr [JObj [("order", JNull)]])])
  = Ok [JObj [("order", JNull)]].
Proof. reflexivity. Qed.

(** A cast entry whose popularity is an explicit null. *)
Definition null_popularity (c : json) : Prop :=
  exists kvs, c = JObj kvs /\ Py.lookup "popularity" kvs = Some JNull.

Lemma add_null (acc : json) : Py.add acc JNull = Raise TypeError.
Proof.
  unfold Py.add. cbn [Py.as_int Py.as_float option_map].
  destruct (Py.as_int acc); destruct (Py.as_float acc); reflexivity.
Qed.

Lemma sum_from_null (l : list json) :
  forall acc : json,
    In JNull l ->
    exists e, Py.sum_from acc l = Raise e /\ (e = TypeError \/ e = OverflowError).
Proof.
  induction l as [| x t IH]; intros acc Hin; [contradiction Hin |].
  cbn [Py.sum_from].
  destruct (Py.add acc x) as [acc' | e] eqn:Hadd; cbn [rbind].
  - destruct Hin as [-> | Hin]; [| apply IH; exact Hin].
    rewrite add_null in Hadd. discriminate Hadd.
  - exists e. split; [reflexivity | exact (add_raises _ _ _ Hadd)].
Qed.

Lemma sum_from_ints_null (zs : list Z) (rest : list json) :
  forall a : Z,
    Py.sum_from (JInt a) (map JInt zs ++ JNull :: rest) = Raise TypeError.
Proof.
  induction zs as [| z t IH]; intros a; cbn [map app Py.sum_from].
  - rewrite add_null. reflexivity.
  - cbn [Py.add Py.as_int rbind]. apply IH.
Qed.

Lemma Forall2_In_r {A B : Type} (P : A -> B -> Prop) (l : list A) (r : list B)
    (x : A) :
  Forall2 P l r -> In x l -> exists y, In y r /\ P x y.
Proof.
  induction 1 as [| a b l' r' Hab Hrest IH]; intros Hin; [contradiction Hin |].
  destruct Hin as [<- | Hin].
  - exists b. split; [left; reflexivity | exact Hab].
  - destruct (IH Hin) as (y & Hy & Hxy). exists y. split; [right; exact Hy | exact Hxy].
Qed.

(** X14. An explicit null under "popularity" is not replaced by 0: a list of
    popularities that holds a null cannot be summed, the sum raises
    [TypeError] at the null, unless an integer beyond the double range has
    made it raise [OverflowError] before; after integers alone it is
    [TypeError].  So when one of the first three entries by billing order
    has a null popularity, the candidate gets no record. *)
Theorem null_popularity_rejected :
  (forall pops : list json,
     In JNull pops ->
     exists e,
       popularity_mean pops = Raise e /\ (e = TypeError \/ e = OverflowError)) /\
  (forall (zs : list Z) (rest : list json),
     popularity_mean (map JInt zs ++ JNull :: rest) = Raise TypeError) /\
  (forall (movie_id details credits cast_all : json) (items : list json),
     Py.get credits "cast" (JArr []) = Ok cast_all ->
     Py.iter cast_all = Ok items ->
     Forall billed items ->
     Exists null_popularity (firstn 3 (sort_by_order items)) ->
     exists e, tmdb_record movie_id details credits = Raise e).
Proof.
  assert (Hmean : forall pops : list json,
             In JNull pops ->
             exists e,
               popularity_mean pops = Raise e /\
               (e = TypeError \/ e = OverflowError)).
  { intros pops Hin. unfold popularity_mean, Py.sum.
    destruct pops as [| x t]; [contradiction Hin |].
    destruct (sum_from_null (x :: t) (JInt 0) Hin) as (e & -> & He).
    exists e. split; [reflexivity | exact He]. }
  split; [exact Hmean |]. split.
  { intros zs rest. unfold popularity_mean, Py.sum.
    rewrite sum_from_ints_null.
    destruct (map JInt zs ++ JNull :: rest) eqn:Hl; [| reflexivity].
    destruct zs; discriminate Hl. }
  intros movie_id details credits cast_all items Hget Hiter Hbilled Hnull.
  assert (Hcast : top_cast credits = Ok (firstn 3 (sort_by_order items))).
  { unfold top_cast. rewrite Hget. cbn [rbind]. rewrite Hiter. cbn [rbind].
    rewrite sorted_by_order_key by exact Hbilled. reflexivity. }
  remember (firstn 3 (sort_by_order items)) as cast eqn:Hc0. clear Hc0.
  destruct (tmdb_record movie_id details credits) as [rec | e] eqn:Hrec;
    [| exists e; reflexivity].
  exfalso. unfold tmdb_record in Hrec. rewrite Hcast in Hrec.
  cbn [rbind] in Hrec. inv_result Hrec.
  match goal with
  | Ep : cast_popularities cast = Ok ?pops,
    Em : popularity_mean ?pops = Ok _ |- _ =>
      unfold cast_popularities in Ep;
      pose proof (rmap_Forall2 _ cast pops Ep) as Hall;
      assert (Hin : In JNull pops);
      [| destruct (Hmean pops Hin) as (e & He & _); rewrite He in Em;
         discriminate Em]
  end.
  apply Exists_exists in Hnull. destruct Hnull as (c & Hc & kvs & -> & Hpop).
  destruct (Forall2_In_r _ _ _ _ Hall Hc) as (y & Hy & Hpy).
  unfold Py.get in Hpy. rewrite Hpop in Hpy. injection Hpy as <-. exact Hy.
Qed.

(** An integer beyond the double range before the null: the sum raises
    [OverflowError] when it meets the float, and never reaches the null. *)
Example overflow_before_null :
  popularity_mean
    [JInt (10 ^ 400); JReal (S754_finite false 6755399441055744 (-52)); JNull]
  = Raise OverflowError.
Proof. vm_compute. reflexivity. Qed.

(** A film whose second-billed actor has a null popularity. *)
Example null_popularity_example :
  tmdb_record (JInt 7) (JObj [("title", JStr "Test Film")])
    (JObj [("cast", JArr [cast_entry (Some 0) (Some 10);
                          JObj [("order", JInt 1); ("popularity", JNull)]])])
  = Raise TypeError.
Proof. reflexivity. Qed.

(** ** Hard failures of the rating service *)

(** X15. Only a non-200 status and a refusal in the payload are soft: when
    the primary record has been built and carries an identifier, an
    exception of the rating request itself, or a 200 response that cannot be
    decoded, loses the whole candidate: its turn of the loop returns,
    nothing is written and the failure is printed. *)
Theorem omdb_hard_failure (server : nat -> request -> result response)
    (py_float : json -> result json) (i : nat)
    (movie_id primary imdb_id : json) (e : exn) (w w1 : world) :
  get_tmdb_record server movie_id w = (Ok primary, w1) ->
  Py.get primary "imdb_id" JNull = Ok imdb_id ->
  Py.truthy imdb_id = true ->
  server (List.length (requests w1)) (OmdbGet imdb_id) = Raise e \/
  (e = JSONDecodeError /\
   exists r, server (List.length (requests w1)) (OmdbGet imdb_id) = Ok r /\
             status_code r = 200 /\ body r = None) ->
  exists w',
    scrape_movie server py_float i movie_id w = (Ok tt, w') /\
    sink w' = sink w /\
    console w' = console w ++ [Failed movie_id e].
Proof.
  intros Htmdb Hid Htruthy Hfail.
  assert (Hm : fst (merged_record server py_float movie_id w) = Raise e).
  { unfold merged_record, bind. rewrite Htmdb. unfold lift. rewrite Hid.
    unfold get_omdb_record. rewrite Htruthy. cbn [negb].
    unfold bind, http_get.
    destruct Hfail as [-> | (-> & r & -> & Hst & Hbody)]; [reflexivity |].
    rewrite Hst. cbn [Z.eqb Pos.eqb negb]. unfold lift, response_json.
    rewrite Hbody. reflexivity. }
  destruct (scrape_movie_spec server py_float i movie_id w)
    as (w' & Hrun & Hs & Hc).
  rewrite Hm in Hs, Hc. cbn [written reported] in Hs, Hc.
  rewrite app_nil_r in Hs.
  exists w'. split; [exact Hrun |]. split; [exact Hs | exact Hc].
Qed.

Definition server_omdb_down (n : nat) (req : request) : result response :=
  match req with
  | OmdbGet _ => Raise ConnectionError
  | _ => server_full n req
  end.

Lemma omdb_hard_failure_witness :
  exists w',
    scrape_movie server_omdb_down no_float 1 (JInt 7) empty_world = (Ok tt, w') /\
    sink w' = sink empty_world /\
    console w' = console empty_world ++ [Failed (JInt 7) ConnectionError].
Proof.
  apply (omdb_hard_failure server_omdb_down no_float 1 (JInt 7)
           (match fst (get_tmdb_record server_omdb_down (JInt 7) empty_world) with
            | Ok r => r
            | Raise _ => JNull
            end)
           (JStr "tt0000001") ConnectionError empty_world
           (snd (get_tmdb_record server_omdb_down (JInt 7) empty_world))).
  - reflexivity.
  - reflexivity.
  - reflexivity.
  - left. reflexivity.
Defined.
